(** * Spectre-Aegis: the arbitrage detector

    A shallow embedding of
    [analytics-modules/arbitrage/arbitrage_detector.py] and the properties
    its specification states about it.

    Conventions of the embedding.
    - Python numbers (prices, probabilities, thresholds, bankrolls) are
      rationals [Q]: every arithmetic operation is exact, comparisons are
      the order of [Q], and numeric equality is [Qeq].  Binary rounding of
      IEEE doubles is not represented.
    - A Python exception is a value [Raise e] of [result]; [/] on numbers
      raises [ZeroDivisionError] on a zero divisor.
    - The detector object ([self]) and the wall clock are threaded through
      the methods by an explicit state, which survives a raised exception.
    - Dictionaries read with [.get(key, default)] are records whose fields
      are options; [None] stands for an absent key. *)

From Stdlib Require Import QArith Qabs Qround Qminmax Lqa Lia ZArith.
From Stdlib Require Import Floats.
Set Warnings "-inexact-float".
From Stdlib Require Import List String Bool Permutation Sorted.
Import ListNotations.
Open Scope Q_scope.

(** ** Numbers *)

Module Num.

Definition Qltb (x y : Q) : bool := negb (Qle_bool y x).

(** [round(x, 2)]: the nearest multiple of 1/100, a tie going to the even
    one. *)
Definition round2 (x : Q) : Q :=
  let n := x * 100 in
  let f := Qfloor n in
  let r := n - inject_Z f in
  if Qltb r (1 # 2) then inject_Z f / 100
  else if Qltb (1 # 2) r then inject_Z (f + 1) / 100
  else if Z.even f then inject_Z f / 100
  else inject_Z (f + 1) / 100.

End Num.
Export Num.

(** ** Exceptions and the state-and-exception monad *)

Inductive exn : Type :=
| ZeroDivisionError
| AttributeError
| ValueError
| ImportError
| OverflowError.

Inductive result (A : Type) : Type :=
| Ok (a : A)
| Raise (e : exn).
Arguments Ok {A} a.
Arguments Raise {A} e.

(** Python's true division of two numbers. *)
Definition truediv (a b : Q) : result Q :=
  if Qeq_bool b 0 then Raise ZeroDivisionError else Ok (a / b).

Module Eff.

Section Monad.
Context {S : Type}.

Definition M (A : Type) : Type := S -> result A * S.

Definition ret {A} (a : A) : M A := fun s => (Ok a, s).

Definition raise {A} (e : exn) : M A := fun s => (Raise e, s).

Definition bind {A B} (m : M A) (k : A -> M B) : M B :=
  fun s =>
    match m s with
    | (Ok a, s') => k a s'
    | (Raise e, s') => (Raise e, s')
    end.

Definition lift {A} (r : result A) : M A := fun s => (r, s).

(** [try: body / except Exception: handler]. *)
Definition try_except {A} (body : M A) (handler : exn -> M A) : M A :=
  fun s =>
    match body s with
    | (Ok a, s') => (Ok a, s')
    | (Raise e, s') => handler e s'
    end.

Definition get : M S := fun s => (Ok s, s).

Definition modify (f : S -> S) : M unit := fun s => (Ok tt, f s).
End Monad.
Arguments M : clear implicits.

End Eff.
Export Eff.

Declare Scope eff_scope.
Delimit Scope eff_scope with eff.
Notation "x <- m ;; k" := (bind m (fun x => k))
  (at level 61, m at next level, right associativity) : eff_scope.
Notation "m ;;; k" := (bind m (fun _ => k))
  (at level 61, right associativity) : eff_scope.

(** ** Data *)

(** One entry of [market['outcomes']]. *)
Record Outcome : Type := {
  o_name : option string;
  o_price : option Q
}.

(** One entry of [bookmaker['markets']]. *)
Record Market : Type := {
  m_key : option string;
  m_outcomes : option (list Outcome)
}.

(** One entry of [game_data['bookmakers']]. *)
Record Bookmaker : Type := {
  b_title : option string;
  b_markets : option (list Market)
}.

(** The [game_data] dictionary. *)
Record Game : Type := {
  g_id : option string;
  g_sport_title : option string;
  g_home_team : option string;
  g_away_team : option string;
  g_commence_time : option string;
  g_bookmakers : option (list Bookmaker)
}.

(** [d.get(key, default)]. *)
Definition dict_get {A} (field : option A) (default : A) : A :=
  match field with
  | Some v => v
  | None => default
  end.

Record ArbitrageOpportunity : Type := {
  game_id : string;
  sport : string;
  home_team : string;
  away_team : string;
  commence_time : string;
  best_home_odds : Q;
  best_home_bookmaker : string;
  best_away_odds : Q;
  best_away_bookmaker : string;
  profit_percentage : Q;
  stake_home : Q;
  stake_away : Q;
  guaranteed_return : Q;
  risk_level : string;
  time_sensitivity : string;
  detected_at : string
}.

Record ArbitrageDetector : Type := {
  min_profit_threshold : Q;
  max_profit_threshold : Q;
  opportunities_found : list ArbitrageOpportunity
}.

(** [ArbitrageDetector(min_profit_threshold=0.01, max_profit_threshold=0.15)]. *)
Definition new_detector (min_profit max_profit : Q) : ArbitrageDetector :=
  {| min_profit_threshold := min_profit;
     max_profit_threshold := max_profit;
     opportunities_found := [] |}.

Definition default_detector : ArbitrageDetector :=
  new_detector (1 # 100) (15 # 100).

(** What the detector does not compute itself: pandas' parser, the wall
    clock (seconds since the epoch, read by tick) and [isoformat]. *)
Record World : Type := {
  to_datetime : option string -> result Q;
  wall_clock : nat -> Q;
  isoformat : Q -> string
}.

(** The detector object and the number of clock reads so far. *)
Record State : Type := {
  this : ArbitrageDetector;
  clock : nat
}.

Definition tick (s : State) : State :=
  {| this := this s; clock := Datatypes.S (clock s) |}.

Definition remember (opp : ArbitrageOpportunity) (s : State) : State :=
  {| this :=
       {| min_profit_threshold := min_profit_threshold (this s);
          max_profit_threshold := max_profit_threshold (this s);
          opportunities_found := opportunities_found (this s) ++ [opp] |};
     clock := clock s |}.

(** ** The detector *)

Open Scope eff_scope.
Open Scope string_scope.

(** [_odds_to_probability]. *)
Definition _odds_to_probability (odds : Q) : result Q :=
  if Qle_bool 2 odds then truediv 1 odds
  else if Qltb 0 odds then truediv 100 (odds + 100)
  else truediv (Qabs odds) (Qabs odds + 100).

(** [_assess_risk]. *)
Definition known_bookmakers : list string :=
  ["DraftKings"; "FanDuel"; "BetMGM"; "Caesars"; "PointsBet"].

Definition str_in (x : string) (l : list string) : bool :=
  existsb (String.eqb x) l.

Definition _assess_risk (profit_pct home_odds away_odds : Q)
    (home_bookmaker away_bookmaker : string) : string :=
  if Qltb (5 # 100) profit_pct then "high"
  else if Qltb home_odds (11 # 10) || Qltb away_odds (11 # 10) then "medium"
  else if negb (str_in home_bookmaker known_bookmakers)
          || negb (str_in away_bookmaker known_bookmakers) then "medium"
  else "low".

Section Detector.
Variable W : World.

(** A read of the wall clock ([pd.Timestamp.now], [datetime.now]). *)
Definition now : M State Q :=
  fun s => (Ok (wall_clock W (clock s)), tick s).

(** [_assess_time_sensitivity].  [to_datetime W] covers the import of
    pandas, the parse and the read of [game_time.tz]; whatever it raises
    is caught by the [except Exception] clause. *)
Definition _assess_time_sensitivity (game_data : Game) (profit_pct : Q)
    : M State string :=
  try_except
    (game_time <- lift (to_datetime W (g_commence_time game_data)) ;;
     now_ <- now ;;
     hours_until <- lift (truediv (game_time - now_) 3600) ;;
     if Qltb (3 # 100) profit_pct then ret "urgent"
     else if Qltb hours_until 2 then ret "urgent"
     else if Qltb 48 hours_until then ret "stable"
     else ret "moderate")
    (fun _ => ret "moderate").

(** [_calculate_arbitrage]. *)
Definition _calculate_arbitrage (game_data : Game)
    (home_odds : Q) (home_bookmaker : string)
    (away_odds : Q) (away_bookmaker : string)
    : M State (option ArbitrageOpportunity) :=
  home_prob <- lift (_odds_to_probability home_odds) ;;
  away_prob <- lift (_odds_to_probability away_odds) ;;
  let total_prob := home_prob + away_prob in
  if Qle_bool 1 total_prob then ret None
  else
    inv_total <- lift (truediv 1 total_prob) ;;
    let profit_pct := inv_total - 1 in
    s <- get ;;
    if Qltb profit_pct (min_profit_threshold (this s)) then ret None
    else if Qltb (max_profit_threshold (this s)) profit_pct then ret None
    else
      stake_home_ <- lift (truediv home_prob total_prob) ;;
      stake_away_ <- lift (truediv away_prob total_prob) ;;
      let guaranteed_return_ := profit_pct in
      let risk_level_ :=
        _assess_risk profit_pct home_odds away_odds
                     home_bookmaker away_bookmaker in
      time_sensitivity_ <- _assess_time_sensitivity game_data profit_pct ;;
      detected <- now ;;
      ret (Some
        {| game_id := dict_get (g_id game_data) "";
           sport := dict_get (g_sport_title game_data) "";
           home_team := dict_get (g_home_team game_data) "";
           away_team := dict_get (g_away_team game_data) "";
           commence_time := dict_get (g_commence_time game_data) "";
           best_home_odds := home_odds;
           best_home_bookmaker := home_bookmaker;
           best_away_odds := away_odds;
           best_away_bookmaker := away_bookmaker;
           profit_percentage := profit_pct * 100;
           stake_home := stake_home_ * 100;
           stake_away := stake_away_ * 100;
           guaranteed_return := guaranteed_return_ * 100;
           risk_level := risk_level_;
           time_sensitivity := time_sensitivity_;
           detected_at := isoformat W detected |}).
End Detector.

(** The dictionaries [best_home] and [best_away] of [scan_game]. *)
Record Best : Type := {
  odds : Q;
  bookmaker : string
}.

Definition unset : Best := {| odds := 0; bookmaker := "" |}.

Section BestPrices.
Variables home_team_ away_team_ : string.

(** The body of [for outcome in outcomes]. *)
Definition visit_outcome (bookmaker_name : string)
    (best : Best * Best) (outcome : Outcome) : Best * Best :=
  let '(best_home, best_away) := best in
  let odds_ := dict_get (o_price outcome) 0 in
  let team := dict_get (o_name outcome) "" in
  if String.eqb team home_team_ && Qltb (odds best_home) odds_ then
    ({| odds := odds_; bookmaker := bookmaker_name |}, best_away)
  else if String.eqb team away_team_ && Qltb (odds best_away) odds_ then
    (best_home, {| odds := odds_; bookmaker := bookmaker_name |})
  else best.

Definition is_h2h (market : Market) : bool :=
  match m_key market with
  | Some k => String.eqb k "h2h"
  | None => false
  end.

(** The body of [for market in markets]. *)
Definition visit_market (bookmaker_name : string)
    (best : Best * Best) (market : Market) : Best * Best :=
  if is_h2h market then
    fold_left (visit_outcome bookmaker_name)
              (dict_get (m_outcomes market) []) best
  else best.

(** The body of [for bookmaker in bookmakers]. *)
Definition visit_bookmaker (best : Best * Best) (bk : Bookmaker)
    : Best * Best :=
  let bookmaker_name := dict_get (b_title bk) "Unknown" in
  fold_left (visit_market bookmaker_name) (dict_get (b_markets bk) []) best.
End BestPrices.

(** The best price of each side once the three loops of [scan_game] have
    run. *)
Definition best_prices (game_data : Game) : Best * Best :=
  fold_left
    (visit_bookmaker (dict_get (g_home_team game_data) "")
                     (dict_get (g_away_team game_data) ""))
    (dict_get (g_bookmakers game_data) []) (unset, unset).

Section Scan.
Variable W : World.

(** [scan_game]. *)
Definition scan_game (game_data : Game)
    : M State (option ArbitrageOpportunity) :=
  let bookmakers := dict_get (g_bookmakers game_data) [] in
  if (List.length bookmakers <? 2)%nat then ret None
  else
    let '(best_home, best_away) := best_prices game_data in
    if Qeq_bool (odds best_home) 0 || Qeq_bool (odds best_away) 0
    then ret None
    else
      opportunity <-
        _calculate_arbitrage W game_data
          (odds best_home) (bookmaker best_home)
          (odds best_away) (bookmaker best_away) ;;
      match opportunity with
      | Some opp => modify (remember opp) ;;; ret (Some opp)
      | None => ret None
      end.

End Scan.

(** Python's [list.sort(key=..., reverse=True)]: descending by key, and
    stable (elements of equal key keep their order). *)
Section SortReverse.
Context {A : Type}.
Variable key : A -> Q.


End SortReverse.



Section OptimalStakes.
Variable opportunity : ArbitrageOpportunity.
Variable total_bankroll : Q.






End OptimalStakes.


(** ** The summary of the history *)

(** A dictionary from strings to counts, in insertion order. *)
Definition Counts : Type := list (string * nat).

(** The outcome of a dictionary lookup. *)
Inductive keyed (A : Type) : Type :=
| Found (a : A)
| KeyError (key : string).
Arguments Found {A} a.
Arguments KeyError {A} key.

(** [k in d]. *)
Fixpoint dict_contains (d : Counts) (k : string) : bool :=
  match d with
  | [] => false
  | (k', _) :: d' => String.eqb k' k || dict_contains d' k
  end.

(** [d[k]]. *)
Fixpoint dict_getitem (d : Counts) (k : string) : keyed nat :=
  match d with
  | [] => KeyError k
  | (k', v) :: d' => if String.eqb k' k then Found v else dict_getitem d' k
  end.

(** [d[k] = v]: an existing key keeps its place, a new one goes last. *)
Fixpoint dict_setitem (d : Counts) (k : string) (v : nat) : Counts :=
  match d with
  | [] => [(k, v)]
  | (k', v') :: d' =>
      if String.eqb k' k then (k', v) :: d'
      else (k', v') :: dict_setitem d' k v
  end.

(** [if k not in d: d[k] = 0] followed by [d[k] += 1]. *)
Definition count_one (d : Counts) (k : string) : keyed Counts :=
  let d1 := if negb (dict_contains d k) then dict_setitem d k 0 else d in
  match dict_getitem d1 k with
  | Found n => Found (dict_setitem d1 k (n + 1))
  | KeyError k' => KeyError k'
  end.

(** One grouping loop of [get_summary_stats], over the keys of the
    opportunities in history order. *)
Fixpoint count_all (keys : list string) (d : Counts) : keyed Counts :=
  match keys with
  | [] => Found d
  | k :: rest =>
      match count_one d k with
      | Found d' => count_all rest d'
      | KeyError k' => KeyError k'
      end
  end.

(** [np.mean] of a list of numbers. *)
Definition np_mean (values : list Q) : Q :=
  fold_right Qplus 0 values / inject_Z (Z.of_nat (List.length values)).

(** [max] and [min] of the non-empty list [x :: values]. *)
Definition py_max (x : Q) (values : list Q) : Q :=
  fold_left (fun m y => if Qltb m y then y else m) values x.

Definition py_min (x : Q) (values : list Q) : Q :=
  fold_left (fun m y => if Qltb y m then y else m) values x.

(** The dictionary returned by [get_summary_stats]; the key [min_profit]
    is absent from the summary of an empty history. *)
Record Summary : Type := {
  total_opportunities : nat;
  avg_profit : Q;
  max_profit : Q;
  min_profit : option Q;
  by_sport : Counts;
  by_risk : Counts
}.

(** [get_summary_stats]. *)
Definition get_summary_stats (self : ArbitrageDetector) : keyed Summary :=
  match opportunities_found self with
  | [] =>
      Found {| total_opportunities := 0;
               avg_profit := 0;
               max_profit := 0;
               min_profit := None;
               by_sport := [];
               by_risk := [] |}
  | first :: others =>
      let profits := map profit_percentage (first :: others) in
      match count_all (map sport (first :: others)) [] with
      | KeyError k => KeyError k
      | Found by_sport_ =>
          match count_all (map risk_level (first :: others)) [] with
          | KeyError k => KeyError k
          | Found by_risk_ =>
              Found
                {| total_opportunities := List.length (first :: others);
                   avg_profit := round2 (np_mean profits);
                   max_profit := round2 (py_max (hd 0 profits) (tl profits));
                   min_profit :=
                     Some (round2 (py_min (hd 0 profits) (tl profits)));
                   by_sport := by_sport_;
                   by_risk := by_risk_ |}
          end
      end
  end.

(** ** Vocabulary of the specification *)

(** The implied probability as a number: the value [_odds_to_probability]
    returns (see [odds_to_probability_total]). *)
Definition implied_probability (price : Q) : Q :=
  if Qle_bool 2 price then 1 / price
  else if Qltb 0 price then 100 / (price + 100)
  else Qabs price / (Qabs price + 100).

(** A quote: a bookmaker's name and one outcome of one of its head-to-head
    markets, in the order in which [scan_game] visits them. *)
Definition Quote : Type := (string * Outcome)%type.

Definition quotes_of_bookmaker (bk : Bookmaker) : list Quote :=
  map (pair (dict_get (b_title bk) "Unknown"))
      (flat_map (fun market => dict_get (m_outcomes market) [])
                (filter is_h2h (dict_get (b_markets bk) []))).

Definition quotes (game_data : Game) : list Quote :=
  flat_map quotes_of_bookmaker (dict_get (g_bookmakers game_data) []).

Definition quote_price (q : Quote) : Q := dict_get (o_price (snd q)) 0.

Definition quote_names (team : string) (q : Quote) : bool :=
  String.eqb (dict_get (o_name (snd q)) "") team.

(** The bookmakers the quotes of a game originate from, each once. *)
Definition quote_sources (game_data : Game) : list string :=
  nodup string_dec (map fst (quotes game_data)).

Definition best_home_price (game_data : Game) : Q :=
  odds (fst (best_prices game_data)).

Definition best_away_price (game_data : Game) : Q :=
  odds (snd (best_prices game_data)).

(** [total_prob] and [profit_pct] of the two best prices of a game. *)
Definition total_probability (game_data : Game) : Q :=
  implied_probability (best_home_price game_data)
  + implied_probability (best_away_price game_data).

Definition profit_fraction (game_data : Game) : Q :=
  1 / total_probability game_data - 1.

(** The gates of [scan_game] and [_calculate_arbitrage], in their order. *)
Definition accepted (d : ArbitrageDetector) (game_data : Game) : bool :=
  negb (List.length (dict_get (g_bookmakers game_data) []) <? 2)%nat
  && negb (Qeq_bool (best_home_price game_data) 0
           || Qeq_bool (best_away_price game_data) 0)
  && negb (Qle_bool 1 (total_probability game_data))
  && negb (Qltb (profit_fraction game_data) (min_profit_threshold d))
  && negb (Qltb (max_profit_threshold d) (profit_fraction game_data)).

(** What an opportunity records of the game it was found in. *)
Definition opportunity_of (game_data : Game) (opp : ArbitrageOpportunity)
    : Prop :=
  game_id opp = dict_get (g_id game_data) ""
  /\ best_home_odds opp = best_home_price game_data
  /\ best_home_bookmaker opp = bookmaker (fst (best_prices game_data))
  /\ best_away_odds opp = best_away_price game_data
  /\ best_away_bookmaker opp = bookmaker (snd (best_prices game_data))
  /\ profit_percentage opp = profit_fraction game_data * 100
  /\ stake_home opp =
       implied_probability (best_home_price game_data)
       / total_probability game_data * 100
  /\ stake_away opp =
       implied_probability (best_away_price game_data)
       / total_probability game_data * 100.

(** The step of [scan_game]'s loops on one quote. *)
Definition visit_quote (home_team_ away_team_ : string)
    (best : Best * Best) (q : Quote) : Best * Best :=
  visit_outcome home_team_ away_team_ (fst q) best (snd q).

(** [b] is the unset sentinel, or the positive price of a quote of [qs]
    that names [team], with that quote's bookmaker. *)
Definition chosen (team : string) (qs : list Quote) (b : Best) : Prop :=
  b = unset
  \/ (0 < odds b
      /\ exists q, In q qs /\ quote_names team q = true
                   /\ quote_price q = odds b /\ fst q = bookmaker b).




(** The loop of [scan_game] seen from one side: a quote naming [team]
    replaces the best so far when its price is strictly higher. *)
Definition side_step (team : string) (b : Best) (q : Quote) : Best :=
  if quote_names team q && Qltb (odds b) (quote_price q)
  then {| odds := quote_price q; bookmaker := fst q |}
  else b.

(** [b] is the price and bookmaker of a quote of [qs] naming [team], no
    earlier quote naming [team] reaches that price and no later one
    exceeds it. *)
Definition first_best (team : string) (qs : list Quote) (b : Best) : Prop :=
  exists pre q post,
    qs = (pre ++ q :: post)%list
    /\ quote_names team q = true
    /\ quote_price q = odds b
    /\ fst q = bookmaker b
    /\ (forall x, In x pre -> quote_names team x = true ->
                  quote_price x < odds b)
    /\ (forall x, In x post -> quote_names team x = true ->
                  quote_price x <= odds b).

(** [b] is what the loop should find for [team] among [qs]: unset when no
    quote naming [team] has a positive price, else the first best one. *)
Definition best_of (team : string) (qs : list Quote) (b : Best) : Prop :=
  (b = unset
   /\ forall x, In x qs -> quote_names team x = true -> quote_price x <= 0)
  \/ (0 < odds b /\ first_best team qs b).

(** The count recorded for a key, 0 when the key is absent. *)
Definition count_at (d : Counts) (k : string) : nat :=
  match dict_getitem d k with
  | Found n => n
  | KeyError _ => 0%nat
  end.

Definition total_count (d : Counts) : nat := list_sum (map snd d).

(** The hours between the clock at tick [n] and a parsed commence time. *)
Definition hours_until_at (W : World) (n : nat) (game_time : Q) : Q :=
  (game_time - wall_clock W n) / 3600.

(** ** Sample data *)

Module Sample.

Definition quote (name : string) (price : Q) : Outcome :=
  {| o_name := Some name; o_price := Some price |}.

Definition h2h (outcomes : list Outcome) : Market :=
  {| m_key := Some "h2h"; m_outcomes := Some outcomes |}.

Definition spreads (outcomes : list Outcome) : Market :=
  {| m_key := Some "spreads"; m_outcomes := Some outcomes |}.

Definition book (title : string) (markets : list Market) : Bookmaker :=
  {| b_title := Some title; b_markets := Some markets |}.

Definition lakers_celtics (id commence : string) (books : list Bookmaker)
    : Game :=
  {| g_id := Some id;
     g_sport_title := Some "NBA";
     g_home_team := Some "Los Angeles Lakers";
     g_away_team := Some "Boston Celtics";
     g_commence_time := Some commence;
     g_bookmakers := Some books |}.

Definition lines (home away : Q) : Market :=
  h2h [quote "Los Angeles Lakers" home; quote "Boston Celtics" away].

(** Two bookmakers, each quoting both sides. *)
Definition two_books (id : string) (h1 a1 h2 a2 : Q) : Game :=
  lakers_celtics id "2025-12-21T19:00:00Z"
    [book "DraftKings" [lines h1 a1]; book "FanDuel" [lines h2 a2]].

(** The game of [demo_arbitrage_detection]. *)
Definition arb_game_1 : Game :=
  two_books "arb_game_1" (215 # 100) (175 # 100) (170 # 100) (220 # 100).



(** Best prices 2.04 and 2.04: a profit of exactly 2 percent. *)
Definition two_percent (id : string) : Game :=
  two_books id (204 # 100) (3 # 2) (3 # 2) (204 # 100).


(** One bookmaker quoting 2.15 and 2.20. *)
Definition one_book_game : Game :=
  lakers_celtics "one_book" "2025-12-21T19:00:00Z"
    [book "DraftKings" [lines (215 # 100) (220 # 100)]].

(** The same quotes, next to a bookmaker that offers no head-to-head
    market. *)
Definition one_source_game : Game :=
  lakers_celtics "one_source" "2025-12-21T19:00:00Z"
    [book "DraftKings" [lines (215 # 100) (220 # 100)];
     book "FanDuel"
       [spreads [quote "Los Angeles Lakers" (191 # 100);
                 quote "Boston Celtics" (191 # 100)]]].

(** The home side only quoted at American negative prices. *)
Definition negative_home_game : Game :=
  two_books "negative_home" (-150) (220 # 100) (-140) (215 # 100).

(** A commence time that does not parse. *)
Definition undated_game : Game :=
  lakers_celtics "undated" "tip-off"
    [book "DraftKings" [lines (204 # 100) (3 # 2)];
     book "FanDuel" [lines (3 # 2) (204 # 100)]].

(** A world whose parser knows one date, 100 hours after the clock starts,
    and whose clock advances one second per read. *)
Definition world : World :=
  {| to_datetime := fun text =>
       match text with
       | Some "2025-12-21T19:00:00Z" => Ok 360000
       | _ => Raise ValueError
       end;
     wall_clock := fun n => inject_Z (Z.of_nat n);
     isoformat := fun _ => "2025-12-17T15:00:00" |}.

Definition fresh (d : ArbitrageDetector) : State :=
  {| this := d; clock := 0 |}.

Definition start : State := fresh default_detector.

(** An opportunity record with the given prices and stake percentages. *)
Definition opportunity (home away stake_h stake_a : Q)
    : ArbitrageOpportunity :=
  {| game_id := "arb_game_1"; sport := "NBA";
     home_team := "Los Angeles Lakers"; away_team := "Boston Celtics";
     commence_time := "2025-12-21T19:00:00Z";
     best_home_odds := home; best_home_bookmaker := "DraftKings";
     best_away_odds := away; best_away_bookmaker := "FanDuel";
     profit_percentage := 2; stake_home := stake_h; stake_away := stake_a;
     guaranteed_return := 2; risk_level := "low";
     time_sensitivity := "stable"; detected_at := "2025-12-17T15:00:00" |}.

End Sample.

Module Demo.

(** The demo game with its two bookmakers listed in the other order. *)
Definition arb_game_1_swapped : Game :=
  Sample.lakers_celtics "arb_game_1" "2025-12-21T19:00:00Z"
    [Sample.book "FanDuel" [Sample.lines (170 # 100) (220 # 100)];
     Sample.book "DraftKings" [Sample.lines (215 # 100) (175 # 100)]].

(** Best prices 2.02 and 2.02 at two well-known bookmakers: a profit of
    1 percent. *)
Definition one_percent (id : string) : Game :=
  Sample.two_books id (202 # 100) (3 # 2) (3 # 2) (202 # 100).

(** The detector of the API, with a minimum profit of 0.5 percent. *)
Definition api_detector : ArbitrageDetector :=
  new_detector (5 # 1000) (15 # 100).

(** [Sample.one_source_game] without the spreads market of FanDuel. *)
Definition one_source_game_bare : Game :=
  Sample.lakers_celtics "one_source" "2025-12-21T19:00:00Z"
    [Sample.book "DraftKings" [Sample.lines (215 # 100) (220 # 100)];
     {| b_title := Some "FanDuel"; b_markets := None |}].


End Demo.


(** * The detector on Python's numbers

    The same methods with prices, thresholds and probabilities as Python
    has them: a number is an [int] or a binary64 [float]; arithmetic on
    floats is the IEEE arithmetic of the primitive floats (an overflow
    gives an infinity and raises nothing), a division by a zero raises
    ZeroDivisionError, the conversion of an [int] beyond the range of the
    doubles raises OverflowError, and two numbers compare by their exact
    values, a NaN comparing false with everything. *)

Module Py.

Local Open Scope float_scope.

Inductive number : Type :=
| PyInt (z : Z)
| PyFloat (f : float).

(** The exact value of a number. *)
Inductive exact : Type :=
| NaN
| NegInf
| Fin (q : Q)
| PosInf.

Definition exact_of_float (f : float) : exact :=
  match Prim2SF f with
  | S754_zero _ => Fin 0
  | S754_infinity false => PosInf
  | S754_infinity true => NegInf
  | S754_nan => NaN
  | S754_finite false m e => Fin (inject_Z (Z.pos m) * (2 # 1) ^ e)
  | S754_finite true m e => Fin (inject_Z (Z.neg m) * (2 # 1) ^ e)
  end.

Definition exact_of (x : number) : exact :=
  match x with
  | PyInt z => Fin (inject_Z z)
  | PyFloat f => exact_of_float f
  end.

Definition exact_lt (a b : exact) : bool :=
  match a, b with
  | NaN, _ | _, NaN => false
  | NegInf, NegInf => false
  | NegInf, _ => true
  | Fin _, NegInf => false
  | Fin x, Fin y => Qltb x y
  | Fin _, PosInf => true
  | PosInf, _ => false
  end.

Definition exact_eq (a b : exact) : bool :=
  match a, b with
  | NegInf, NegInf => true
  | Fin x, Fin y => Qeq_bool x y
  | PosInf, PosInf => true
  | _, _ => false
  end.

(** [x < y], [x > y], [x == y], [x <= y] and [x >= y]. *)
Definition lt (x y : number) : bool := exact_lt (exact_of x) (exact_of y).
Definition gt (x y : number) : bool := lt y x.
Definition eq (x y : number) : bool := exact_eq (exact_of x) (exact_of y).
Definition le (x y : number) : bool := lt x y || eq x y.
Definition ge (x y : number) : bool := le y x.

(** [float(x)]: an [int] is rounded to the nearest double, ties to even. *)
Definition to_float (x : number) : result float :=
  match x with
  | PyFloat f => Ok f
  | PyInt z =>
      let f := SF2Prim (binary_normalize prec emax z 0 false) in
      if is_infinity f then Raise OverflowError else Ok f
  end.

(** [a / b] on two floats. *)
Definition truediv (a b : float) : result float :=
  if exact_eq (exact_of_float b) (Fin 0) then Raise ZeroDivisionError
  else Ok (a / b).

(** [x / y] and [x + y] where one operand at least is a float. *)
Definition div (x y : number) : result float :=
  match to_float x with
  | Raise e => Raise e
  | Ok a =>
      match to_float y with
      | Raise e => Raise e
      | Ok b => truediv a b
      end
  end.

Definition add (x y : number) : result float :=
  match to_float x with
  | Raise e => Raise e
  | Ok a =>
      match to_float y with
      | Raise e => Raise e
      | Ok b => Ok (a + b)
      end
  end.

(** [abs(x)]. *)
Definition py_abs (x : number) : number :=
  match x with
  | PyInt z => PyInt (Z.abs z)
  | PyFloat f => PyFloat (abs f)
  end.

Record Outcome : Type := {
  o_name : option string;
  o_price : option number
}.

Record Market : Type := {
  m_key : option string;
  m_outcomes : option (list Outcome)
}.

Record Bookmaker : Type := {
  b_title : option string;
  b_markets : option (list Market)
}.

Record Game : Type := {
  g_id : option string;
  g_sport_title : option string;
  g_home_team : option string;
  g_away_team : option string;
  g_commence_time : option string;
  g_bookmakers : option (list Bookmaker)
}.

Record ArbitrageOpportunity : Type := {
  game_id : string;
  sport : string;
  home_team : string;
  away_team : string;
  commence_time : string;
  best_home_odds : number;
  best_home_bookmaker : string;
  best_away_odds : number;
  best_away_bookmaker : string;
  profit_percentage : float;
  stake_home : float;
  stake_away : float;
  guaranteed_return : float;
  risk_level : string;
  time_sensitivity : string;
  detected_at : string
}.

Record ArbitrageDetector : Type := {
  min_profit_threshold : number;
  max_profit_threshold : number;
  opportunities_found : list ArbitrageOpportunity
}.

Definition new_detector (min_profit max_profit : number)
    : ArbitrageDetector :=
  {| min_profit_threshold := min_profit;
     max_profit_threshold := max_profit;
     opportunities_found := [] |}.

Definition default_detector : ArbitrageDetector :=
  new_detector (PyFloat 0.01) (PyFloat 0.15).

(** What [pd.to_datetime] returns when it does not raise: a timestamp, or
    NaT (not a time). *)
Inductive datetime : Type :=
| Timestamp (id : nat)
| NaT.

(** What the detector does not compute itself: pandas' parser, the seconds
    from the clock read at a tick to a timestamp, as [total_seconds()]
    gives them, and the text of [datetime.now().isoformat()] at a tick. *)
Record World : Type := {
  to_datetime : option string -> result datetime;
  total_seconds_until : nat -> nat -> float;
  isoformat_now : nat -> string
}.

Record State : Type := {
  this : ArbitrageDetector;
  clock : nat
}.

Definition tick (s : State) : State :=
  {| this := this s; clock := Datatypes.S (clock s) |}.

Definition remember (opp : ArbitrageOpportunity) (s : State) : State :=
  {| this :=
       {| min_profit_threshold := min_profit_threshold (this s);
          max_profit_threshold := max_profit_threshold (this s);
          opportunities_found :=
            (opportunities_found (this s) ++ [opp])%list |};
     clock := clock s |}.

(** [_odds_to_probability]. *)
Definition _odds_to_probability (odds : number) : result float :=
  if ge odds (PyFloat 2.0) then div (PyFloat 1.0) odds
  else if gt odds (PyInt 0) then
    match add odds (PyFloat 100.0) with
    | Raise e => Raise e
    | Ok d => div (PyFloat 100.0) (PyFloat d)
    end
  else
    match add (py_abs odds) (PyFloat 100.0) with
    | Raise e => Raise e
    | Ok d => div (py_abs odds) (PyFloat d)
    end.

(** [_assess_risk]. *)
Definition _assess_risk (profit_pct : float) (home_odds away_odds : number)
    (home_bookmaker away_bookmaker : string) : string :=
  if gt (PyFloat profit_pct) (PyFloat 0.05) then "high"
  else if lt home_odds (PyFloat 1.1) || lt away_odds (PyFloat 1.1)
  then "medium"
  else if negb (str_in home_bookmaker known_bookmakers)
          || negb (str_in away_bookmaker known_bookmakers) then "medium"
  else "low".

Section Detector.
Variable W : World.

(** The clock read of [pd.Timestamp.now] or [datetime.now]: its tick. *)
Definition now : M State nat :=
  fun s => (Ok (clock s), tick s).

(** [(game_time - now).total_seconds()]: NaN for NaT. *)
Definition total_seconds (game_time : datetime) (now_ : nat) : float :=
  match game_time with
  | Timestamp id => total_seconds_until W now_ id
  | NaT => nan
  end.

(** [_assess_time_sensitivity]. *)
Definition _assess_time_sensitivity (game_data : Game) (profit_pct : float)
    : M State string :=
  try_except
    (game_time <- lift (to_datetime W (g_commence_time game_data)) ;;
     now_ <- now ;;
     hours_until <- lift (div (PyFloat (total_seconds game_time now_))
                              (PyInt 3600)) ;;
     if gt (PyFloat profit_pct) (PyFloat 0.03) then ret "urgent"
     else if lt (PyFloat hours_until) (PyInt 2) then ret "urgent"
     else if gt (PyFloat hours_until) (PyInt 48) then ret "stable"
     else ret "moderate")
    (fun _ => ret "moderate").

(** [_calculate_arbitrage]. *)
Definition _calculate_arbitrage (game_data : Game)
    (home_odds : number) (home_bookmaker : string)
    (away_odds : number) (away_bookmaker : string)
    : M State (option ArbitrageOpportunity) :=
  home_prob <- lift (_odds_to_probability home_odds) ;;
  away_prob <- lift (_odds_to_probability away_odds) ;;
  let total_prob := home_prob + away_prob in
  if ge (PyFloat total_prob) (PyFloat 1.0) then ret None
  else
    inv_total <- lift (truediv 1.0 total_prob) ;;
    let profit_pct := inv_total - 1.0 in
    s <- get ;;
    if lt (PyFloat profit_pct) (min_profit_threshold (this s)) then ret None
    else if gt (PyFloat profit_pct) (max_profit_threshold (this s))
    then ret None
    else
      stake_home_ <- lift (truediv home_prob total_prob) ;;
      stake_away_ <- lift (truediv away_prob total_prob) ;;
      let guaranteed_return_ := profit_pct in
      let risk_level_ :=
        _assess_risk profit_pct home_odds away_odds
                     home_bookmaker away_bookmaker in
      time_sensitivity_ <- _assess_time_sensitivity game_data profit_pct ;;
      detected <- now ;;
      ret (Some
        {| game_id := dict_get (g_id game_data) "";
           sport := dict_get (g_sport_title game_data) "";
           home_team := dict_get (g_home_team game_data) "";
           away_team := dict_get (g_away_team game_data) "";
           commence_time := dict_get (g_commence_time game_data) "";
           best_home_odds := home_odds;
           best_home_bookmaker := home_bookmaker;
           best_away_odds := away_odds;
           best_away_bookmaker := away_bookmaker;
           profit_percentage := profit_pct * 100;
           stake_home := stake_home_ * 100;
           stake_away := stake_away_ * 100;
           guaranteed_return := guaranteed_return_ * 100;
           risk_level := risk_level_;
           time_sensitivity := time_sensitivity_;
           detected_at := isoformat_now W detected |}).
End Detector.

Record Best : Type := {
  odds : number;
  bookmaker : string
}.

Definition unset : Best := {| odds := PyInt 0; bookmaker := "" |}.

Section BestPrices.
Variables home_team_ away_team_ : string.

Definition visit_outcome (bookmaker_name : string)
    (best : Best * Best) (outcome : Outcome) : Best * Best :=
  let '(best_home, best_away) := best in
  let odds_ := dict_get (o_price outcome) (PyInt 0) in
  let team := dict_get (o_name outcome) "" in
  if String.eqb team home_team_ && gt odds_ (odds best_home) then
    ({| odds := odds_; bookmaker := bookmaker_name |}, best_away)
  else if String.eqb team away_team_ && gt odds_ (odds best_away) then
    (best_home, {| odds := odds_; bookmaker := bookmaker_name |})
  else best.

Definition is_h2h (market : Market) : bool :=
  match m_key market with
  | Some k => String.eqb k "h2h"
  | None => false
  end.

Definition visit_market (bookmaker_name : string)
    (best : Best * Best) (market : Market) : Best * Best :=
  if is_h2h market then
    fold_left (visit_outcome bookmaker_name)
              (dict_get (m_outcomes market) []) best
  else best.

Definition visit_bookmaker (best : Best * Best) (bk : Bookmaker)
    : Best * Best :=
  let bookmaker_name := dict_get (b_title bk) "Unknown" in
  fold_left (visit_market bookmaker_name) (dict_get (b_markets bk) []) best.
End BestPrices.

Definition best_prices (game_data : Game) : Best * Best :=
  fold_left
    (visit_bookmaker (dict_get (g_home_team game_data) "")
                     (dict_get (g_away_team game_data) ""))
    (dict_get (g_bookmakers game_data) []) (unset, unset).

(** [scan_game]. *)
Definition scan_game (W : World) (game_data : Game)
    : M State (option ArbitrageOpportunity) :=
  let bookmakers := dict_get (g_bookmakers game_data) [] in
  if (List.length bookmakers <? 2)%nat then ret None
  else
    let '(best_home, best_away) := best_prices game_data in
    if eq (odds best_home) (PyInt 0) || eq (odds best_away) (PyInt 0)
    then ret None
    else
      opportunity <-
        _calculate_arbitrage W game_data
          (odds best_home) (bookmaker best_home)
          (odds best_away) (bookmaker best_away) ;;
      match opportunity with
      | Some opp => modify (remember opp) ;;; ret (Some opp)
      | None => ret None
      end.

End Py.

(** Sample data for the detector on Python's numbers. *)
Module PyDemo.

Local Open Scope float_scope.

Definition quote (name : string) (price : float) : Py.Outcome :=
  {| Py.o_name := Some name; Py.o_price := Some (Py.PyFloat price) |}.

Definition lines (home away : float) : Py.Market :=
  {| Py.m_key := Some "h2h";
     Py.m_outcomes :=
       Some [quote "Los Angeles Lakers" home;
             quote "Boston Celtics" away] |}.

Definition book (title : string) (markets : list Py.Market)
    : Py.Bookmaker :=
  {| Py.b_title := Some title; Py.b_markets := Some markets |}.

(** Two bookmakers, each quoting both sides. *)
Definition two_books (id : string) (commence : option string)
    (h1 a1 h2 a2 : float) : Py.Game :=
  {| Py.g_id := Some id;
     Py.g_sport_title := Some "NBA";
     Py.g_home_team := Some "Los Angeles Lakers";
     Py.g_away_team := Some "Boston Celtics";
     Py.g_commence_time := commence;
     Py.g_bookmakers :=
       Some [book "DraftKings" [lines h1 a1];
             book "FanDuel" [lines h2 a2]] |}.

Definition dated : option string := Some "2025-12-21T19:00:00Z".

(** Best prices 2.04 and 2.04. *)
Definition game_204 : Py.Game := two_books "g204" dated 2.04 1.5 1.5 2.04.

(** Best prices 2.10 and 2.10, with a date, with an empty commence time
    and with none. *)
Definition game_210 : Py.Game := two_books "g210" dated 2.1 1.5 1.5 2.1.

Definition game_210_empty_time : Py.Game :=
  two_books "g210" (Some "") 2.1 1.5 1.5 2.1.

Definition game_210_no_time : Py.Game :=
  two_books "g210" None 2.1 1.5 1.5 2.1.

(** Best prices 2.0 and 3.0. *)
Definition game_2_3 : Py.Game := two_books "g23" dated 2.0 1.5 1.5 3.0.

(** The profit the doubles give for best prices 2.04 and 2.04. *)
Definition profit_204 : float :=
  Eval vm_compute in (1.0 / (1.0 / 2.04 + 1.0 / 2.04) - 1.0).

(** A world whose parser knows one date, 100 hours ahead of every clock
    read, answers NaT for an empty or absent text, as pandas does, and
    raises on anything else. *)
Definition world : Py.World :=
  {| Py.to_datetime := fun text =>
       match text with
       | Some "2025-12-21T19:00:00Z" => Ok (Py.Timestamp 0)
       | Some "" => Ok Py.NaT
       | None => Ok Py.NaT
       | _ => Raise ValueError
       end;
     Py.total_seconds_until := fun _ _ => 360000.0;
     Py.isoformat_now := fun _ => "2025-12-17T15:00:00" |}.

Definition fresh (d : Py.ArbitrageDetector) : Py.State :=
  {| Py.this := d; Py.clock := 0 |}.

Definition start : Py.State := fresh Py.default_detector.


(** A home price that is an [int] beyond the range of the doubles. *)
Definition game_huge_int : Py.Game :=
  {| Py.g_id := Some "ghuge";
     Py.g_sport_title := Some "NBA";
     Py.g_home_team := Some "Los Angeles Lakers";
     Py.g_away_team := Some "Boston Celtics";
     Py.g_commence_time := dated;
     Py.g_bookmakers :=
       Some [book "DraftKings"
               [{| Py.m_key := Some "h2h";
                   Py.m_outcomes :=
                     Some [{| Py.o_name := Some "Los Angeles Lakers";
                              Py.o_price := Some (Py.PyInt (10 ^ 400)) |}]
                |}];
             book "FanDuel" [lines 1.5 2.1]] |}.

End PyDemo.

(** * Properties *)

(** ** Numbers *)

Lemma Qltb_lt (x y : Q) : Qltb x y = true <-> x < y.
Proof.
  unfold Qltb. rewrite negb_true_iff.
  split; intro H.
  - destruct (Qlt_le_dec x y) as [L | L]; [exact L |].
    apply Qle_bool_iff in L. congruence.
  - destruct (Qle_bool y x) eqn:E; [| reflexivity].
    apply Qle_bool_iff in E. lra.
Qed.

Lemma Qltb_ge (x y : Q) : Qltb x y = false <-> y <= x.
Proof.
  unfold Qltb. rewrite negb_false_iff. apply Qle_bool_iff.
Qed.

Lemma Qle_bool_gt (x y : Q) : Qle_bool x y = false <-> y < x.
Proof.
  rewrite <- Qltb_lt. unfold Qltb.
  destruct (Qle_bool x y); simpl; split; congruence.
Qed.

Lemma Qeq_bool_false (x y : Q) : Qeq_bool x y = false <-> ~ x == y.
Proof.
  split.
  - apply Qeq_bool_neq.
  - intro N. destruct (Qeq_bool x y) eqn:E; [| reflexivity].
    apply Qeq_bool_iff in E. contradiction.
Qed.

(** Case analysis on the comparisons of the code, leaving the order facts
    in the context. *)
Ltac cmp_cases :=
  repeat match goal with
  | |- context [Qle_bool ?a ?b] =>
      let E := fresh "E" in
      destruct (Qle_bool a b) eqn:E;
      [apply Qle_bool_iff in E | apply Qle_bool_gt in E]
  | |- context [Qltb ?a ?b] =>
      let E := fresh "E" in
      destruct (Qltb a b) eqn:E;
      [apply Qltb_lt in E | apply Qltb_ge in E]
  | |- context [Qeq_bool ?a ?b] =>
      let E := fresh "E" in
      destruct (Qeq_bool a b) eqn:E;
      [apply Qeq_bool_iff in E | apply Qeq_bool_false in E]
  end.

Lemma truediv_ok (a b : Q) : ~ b == 0 -> truediv a b = Ok (a / b).
Proof.
  intro N. unfold truediv. apply Qeq_bool_false in N. now rewrite N.
Qed.

Lemma truediv_zero (a b : Q) :
  b == 0 -> truediv a b = Raise ZeroDivisionError.
Proof.
  intro E. unfold truediv. apply Qeq_bool_iff in E. now rewrite E.
Qed.

Lemma Qdiv_pos (a b : Q) : 0 < a -> 0 < b -> 0 < a / b.
Proof.
  intros Ha Hb. apply Qlt_shift_div_l; lra.
Qed.

Lemma Qdiv_nonneg (a b : Q) : 0 <= a -> 0 < b -> 0 <= a / b.
Proof.
  intros Ha Hb. apply Qle_shift_div_l; lra.
Qed.

(** ** The probability conversion *)

Lemma odds_to_probability_total (price : Q) :
  _odds_to_probability price = Ok (implied_probability price).
Proof.
  unfold _odds_to_probability, implied_probability.
  pose proof (Qabs_nonneg price) as A.
  cmp_cases; apply truediv_ok; lra.
Qed.

Lemma implied_probability_nonneg (price : Q) :
  0 <= implied_probability price.
Proof.
  unfold implied_probability.
  pose proof (Qabs_nonneg price) as A.
  cmp_cases; apply Qdiv_nonneg; lra.
Qed.

Lemma implied_probability_pos (price : Q) :
  0 < price -> 0 < implied_probability price.
Proof.
  intro P. unfold implied_probability.
  cmp_cases; apply Qdiv_pos; lra.
Qed.




(** ** The best prices *)

Lemma fold_left_flat_map {A B C} (f : A -> B -> A) (g : C -> list B)
    (l : list C) (a : A) :
  fold_left f (flat_map g l) a
  = fold_left (fun acc x => fold_left f (g x) acc) l a.
Proof.
  revert a. induction l as [| x l IH]; intro a; simpl.
  - reflexivity.
  - rewrite fold_left_app. apply IH.
Qed.

Lemma fold_left_pair_map {A B} (f : A -> string * B -> A) (name : string)
    (l : list B) (a : A) :
  fold_left f (map (pair name) l) a
  = fold_left (fun acc x => f acc (name, x)) l a.
Proof.
  revert a. induction l as [| x l IH]; intro a; simpl; [reflexivity |].
  apply IH.
Qed.

Lemma visit_bookmaker_quotes (ht at_ : string) (best : Best * Best)
    (bk : Bookmaker) :
  visit_bookmaker ht at_ best bk
  = fold_left (visit_quote ht at_) (quotes_of_bookmaker bk) best.
Proof.
  unfold visit_bookmaker, quotes_of_bookmaker, Quote.
  rewrite fold_left_pair_map.
  generalize (dict_get (b_title bk) "Unknown") as name.
  generalize (dict_get (b_markets bk) []) as markets.
  intros markets name. revert best.
  induction markets as [| m ms IH]; intro best; simpl; [reflexivity |].
  unfold visit_market at 2.
  destruct (is_h2h m); simpl.
  - rewrite fold_left_app. apply IH.
  - apply IH.
Qed.

Lemma best_prices_quotes (game_data : Game) :
  best_prices game_data
  = fold_left
      (visit_quote (dict_get (g_home_team game_data) "")
                   (dict_get (g_away_team game_data) ""))
      (quotes game_data) (unset, unset).
Proof.
  unfold best_prices, quotes. rewrite fold_left_flat_map.
  generalize (unset, unset) as best.
  induction (dict_get (g_bookmakers game_data) []) as [| bk bks IH];
    intro best; simpl; [reflexivity |].
  rewrite visit_bookmaker_quotes. apply IH.
Qed.

Lemma chosen_unset (team : string) (qs : list Quote) : chosen team qs unset.
Proof. now left. Qed.

Lemma visit_quote_chosen (ht at_ : string) (all : list Quote)
    (best : Best * Best) (q : Quote) :
  In q all ->
  chosen ht all (fst best) -> chosen at_ all (snd best) ->
  chosen ht all (fst (visit_quote ht at_ best q))
  /\ chosen at_ all (snd (visit_quote ht at_ best q)).
Proof.
  intros I Hh Ha. destruct best as [bh ba]. simpl in Hh, Ha.
  unfold visit_quote, visit_outcome.
  assert (P : forall b, chosen ht all b \/ chosen at_ all b ->
              0 <= odds b).
  { intros b [[-> | [L _]] | [-> | [L _]]]; simpl; lra. }
  pose proof (P bh (or_introl Hh)) as Ph.
  pose proof (P ba (or_intror Ha)) as Pa.
  destruct (String.eqb (dict_get (o_name (snd q)) "") ht) eqn:Nh; simpl.
  - destruct (Qltb (odds bh) (dict_get (o_price (snd q)) 0)) eqn:Lh; simpl.
    + apply Qltb_lt in Lh. split; [| exact Ha].
      right. simpl. split; [lra |]. exists q. auto.
    + destruct (String.eqb (dict_get (o_name (snd q)) "") at_) eqn:Na; simpl.
      * destruct (Qltb (odds ba) (dict_get (o_price (snd q)) 0)) eqn:La; simpl.
        -- apply Qltb_lt in La. split; [exact Hh |].
           right. simpl. split; [lra |]. exists q. auto.
        -- auto.
      * auto.
  - destruct (String.eqb (dict_get (o_name (snd q)) "") at_) eqn:Na; simpl.
    + destruct (Qltb (odds ba) (dict_get (o_price (snd q)) 0)) eqn:La; simpl.
      * apply Qltb_lt in La. split; [exact Hh |].
        right. simpl. split; [lra |]. exists q. auto.
      * auto.
    + auto.
Qed.

Lemma fold_visit_quote_chosen (ht at_ : string) (all qs : list Quote)
    (best : Best * Best) :
  incl qs all ->
  chosen ht all (fst best) -> chosen at_ all (snd best) ->
  chosen ht all (fst (fold_left (visit_quote ht at_) qs best))
  /\ chosen at_ all (snd (fold_left (visit_quote ht at_) qs best)).
Proof.
  revert best. induction qs as [| q qs IH]; intros best I Hh Ha; simpl.
  - auto.
  - destruct (visit_quote_chosen ht at_ all best q) as [Hh' Ha']; auto.
    + apply I. now left.
    + apply IH; auto. intros x Hx. apply I. now right.
Qed.

(** Each best price is the sentinel or a positive quoted price. *)
Lemma best_prices_chosen (game_data : Game) :
  chosen (dict_get (g_home_team game_data) "") (quotes game_data)
         (fst (best_prices game_data))
  /\ chosen (dict_get (g_away_team game_data) "") (quotes game_data)
            (snd (best_prices game_data)).
Proof.
  rewrite best_prices_quotes.
  apply fold_visit_quote_chosen; auto using incl_refl, chosen_unset.
Qed.

Lemma chosen_nonneg (team : string) (qs : list Quote) (b : Best) :
  chosen team qs b -> 0 <= odds b.
Proof.
  intros [-> | [L _]]; simpl; lra.
Qed.

Lemma best_prices_nonneg (game_data : Game) :
  0 <= best_home_price game_data /\ 0 <= best_away_price game_data.
Proof.
  destruct (best_prices_chosen game_data) as [Hh Ha].
  split; eapply chosen_nonneg; eassumption.
Qed.

(** A side none of whose quotes has a positive price stays unset. *)
Lemma fold_visit_quote_home_unset (ht at_ : string) (qs : list Quote)
    (best : Best * Best) :
  (forall q, In q qs -> quote_names ht q = true -> quote_price q <= 0) ->
  fst best = unset ->
  fst (fold_left (visit_quote ht at_) qs best) = unset.
Proof.
  revert best. induction qs as [| q qs IH]; intros best H U; simpl.
  - exact U.
  - apply IH.
    + intros x Hx. apply H. now right.
    + destruct best as [bh ba]. simpl in U. subst bh.
      unfold visit_quote, visit_outcome. simpl.
      pose proof (H q (or_introl eq_refl)) as Hq.
      unfold quote_names, quote_price in Hq.
      destruct (String.eqb (dict_get (o_name (snd q)) "") ht) eqn:Nh; simpl.
      * specialize (Hq eq_refl). apply Qltb_ge in Hq. rewrite Hq.
        destruct (String.eqb (dict_get (o_name (snd q)) "") at_ &&
                  Qltb (odds ba) (dict_get (o_price (snd q)) 0));
          reflexivity.
      * destruct (String.eqb (dict_get (o_name (snd q)) "") at_ &&
                  Qltb (odds ba) (dict_get (o_price (snd q)) 0));
          reflexivity.
Qed.

Lemma fold_visit_quote_away_unset (ht at_ : string) (qs : list Quote)
    (best : Best * Best) :
  (forall q, In q qs -> quote_names at_ q = true -> quote_price q <= 0) ->
  snd best = unset ->
  snd (fold_left (visit_quote ht at_) qs best) = unset.
Proof.
  revert best. induction qs as [| q qs IH]; intros best H U; simpl.
  - exact U.
  - apply IH.
    + intros x Hx. apply H. now right.
    + destruct best as [bh ba]. simpl in U. subst ba.
      unfold visit_quote, visit_outcome. simpl.
      pose proof (H q (or_introl eq_refl)) as Hq.
      unfold quote_names, quote_price in Hq.
      destruct (String.eqb (dict_get (o_name (snd q)) "") ht &&
                Qltb (odds bh) (dict_get (o_price (snd q)) 0)); simpl;
        [reflexivity |].
      destruct (String.eqb (dict_get (o_name (snd q)) "") at_) eqn:Na; simpl;
        [| reflexivity].
      specialize (Hq eq_refl). apply Qltb_ge in Hq. rewrite Hq. reflexivity.
Qed.

(** ** The methods of the detector *)

(** One step of a monadic computation. *)
Ltac run := cbv beta iota zeta delta [bind lift get ret modify].

Lemma assess_time_sensitivity_total (W : World) (game_data : Game)
    (profit_pct : Q) (s : State) :
  exists label s',
    _assess_time_sensitivity W game_data profit_pct s = (Ok label, s')
    /\ this s' = this s.
Proof.
  unfold _assess_time_sensitivity, try_except, bind, lift, now, ret.
  destruct (to_datetime W (g_commence_time game_data)) as [t | e].
  - rewrite truediv_ok by lra.
    cmp_cases; eexists; eexists; split; reflexivity.
  - eexists; eexists; split; reflexivity.
Qed.

Lemma assess_time_sensitivity_unparsed (W : World) (game_data : Game)
    (profit_pct : Q) (s : State) (e : exn) :
  to_datetime W (g_commence_time game_data) = Raise e ->
  _assess_time_sensitivity W game_data profit_pct s = (Ok "moderate", s).
Proof.
  intro H.
  unfold _assess_time_sensitivity, try_except, bind, lift.
  rewrite H. reflexivity.
Qed.

(** The gates of [_calculate_arbitrage] on the two prices it is given. *)
Lemma calculate_arbitrage_cases (W : World) (game_data : Game)
    (ho : Q) (hb : string) (ao : Q) (ab : string) (s : State) :
  let hp := implied_probability ho in
  let ap := implied_probability ao in
  let profit_pct := 1 / (hp + ap) - 1 in
  ~ hp + ap == 0 ->
  (Qle_bool 1 (hp + ap)
   || Qltb profit_pct (min_profit_threshold (this s))
   || Qltb (max_profit_threshold (this s)) profit_pct = true ->
   _calculate_arbitrage W game_data ho hb ao ab s = (Ok None, s))
  /\ (Qle_bool 1 (hp + ap)
      || Qltb profit_pct (min_profit_threshold (this s))
      || Qltb (max_profit_threshold (this s)) profit_pct = false ->
      exists opp label s1,
        _assess_time_sensitivity W game_data profit_pct s = (Ok label, s1)
        /\ _calculate_arbitrage W game_data ho hb ao ab s
           = (Ok (Some opp), tick s1)
        /\ game_id opp = dict_get (g_id game_data) ""
        /\ best_home_odds opp = ho /\ best_home_bookmaker opp = hb
        /\ best_away_odds opp = ao /\ best_away_bookmaker opp = ab
        /\ profit_percentage opp = profit_pct * 100
        /\ stake_home opp = hp / (hp + ap) * 100
        /\ stake_away opp = ap / (hp + ap) * 100
        /\ risk_level opp = _assess_risk profit_pct ho ao hb ab
        /\ time_sensitivity opp = label
        /\ this s1 = this s).
Proof.
  intros hp ap profit_pct NZ.
  unfold _calculate_arbitrage.
  rewrite !odds_to_probability_total. fold hp ap. run.
  split; intro G.
  - destruct (Qle_bool 1 (hp + ap)); [reflexivity |].
    rewrite truediv_ok by exact NZ. run.
    fold profit_pct. simpl in G.
    destruct (Qltb profit_pct (min_profit_threshold (this s)));
      [reflexivity |].
    simpl in G. rewrite G. reflexivity.
  - apply orb_false_iff in G. destruct G as [G G3].
    apply orb_false_iff in G. destruct G as [G1 G2].
    rewrite G1, truediv_ok by exact NZ. run.
    fold profit_pct. rewrite G2, G3, !truediv_ok by exact NZ. run.
    destruct (assess_time_sensitivity_total W game_data profit_pct s)
      as (label & s1 & Ht & Hd).
    rewrite Ht. unfold now.
    eexists; exists label, s1.
    split; [reflexivity |].
    split; [reflexivity |].
    simpl. repeat split; try reflexivity. exact Hd.
Qed.

Lemma best_price_pos (game_data : Game) :
  (~ best_home_price game_data == 0 -> 0 < best_home_price game_data)
  /\ (~ best_away_price game_data == 0 -> 0 < best_away_price game_data).
Proof.
  destruct (best_prices_nonneg game_data) as [Hh Ha].
  split; intro N.
  - destruct (Qlt_le_dec 0 (best_home_price game_data)) as [L | L];
      [exact L | exfalso; apply N; lra].
  - destruct (Qlt_le_dec 0 (best_away_price game_data)) as [L | L];
      [exact L | exfalso; apply N; lra].
Qed.

Lemma total_probability_pos (game_data : Game) :
  ~ best_home_price game_data == 0 ->
  ~ best_away_price game_data == 0 ->
  0 < total_probability game_data.
Proof.
  intros Nh Na. destruct (best_price_pos game_data) as [Ph Pa].
  pose proof (implied_probability_pos _ (Ph Nh)).
  pose proof (implied_probability_pos _ (Pa Na)).
  unfold total_probability. lra.
Qed.

(** [scan_game] on a game that fails one of the gates. *)
Lemma scan_game_rejected (W : World) (game_data : Game) (s : State) :
  accepted (this s) game_data = false ->
  scan_game W game_data s = (Ok None, s).
Proof.
  unfold accepted, scan_game. intro G.
  destruct (List.length (dict_get (g_bookmakers game_data) []) <? 2)%nat;
    [reflexivity |].
  pose proof (total_probability_pos game_data) as TP.
  unfold profit_fraction, total_probability, best_home_price,
    best_away_price in *.
  destruct (best_prices game_data) as [bh ba]. simpl in *.
  destruct (Qeq_bool (odds bh) 0) eqn:Zh; [reflexivity |].
  destruct (Qeq_bool (odds ba) 0) eqn:Za; [reflexivity |].
  simpl in *.
  apply Qeq_bool_false in Zh, Za. specialize (TP Zh Za).
  destruct (calculate_arbitrage_cases W game_data (odds bh) (bookmaker bh)
              (odds ba) (bookmaker ba) s) as [R _]; [lra |].
  unfold bind. rewrite R; [reflexivity |].
  rewrite <- !negb_orb in G. apply negb_false_iff in G. exact G.
Qed.

(** [scan_game] on a game that passes every gate. *)
Lemma scan_game_accepted (W : World) (game_data : Game) (s : State) :
  accepted (this s) game_data = true ->
  exists opp label s1,
    _assess_time_sensitivity W game_data (profit_fraction game_data) s
    = (Ok label, s1)
    /\ scan_game W game_data s = (Ok (Some opp), remember opp (tick s1))
    /\ opportunity_of game_data opp
    /\ time_sensitivity opp = label
    /\ this s1 = this s.
Proof.
  unfold accepted, scan_game, opportunity_of. intro G.
  destruct (List.length (dict_get (g_bookmakers game_data) []) <? 2)%nat;
    [discriminate G |].
  pose proof (total_probability_pos game_data) as TP.
  unfold profit_fraction, total_probability, best_home_price,
    best_away_price in *.
  destruct (best_prices game_data) as [bh ba]. simpl in *.
  destruct (Qeq_bool (odds bh) 0) eqn:Zh; [discriminate G |].
  destruct (Qeq_bool (odds ba) 0) eqn:Za; [discriminate G |].
  simpl in *.
  apply Qeq_bool_false in Zh, Za. specialize (TP Zh Za).
  destruct (calculate_arbitrage_cases W game_data (odds bh) (bookmaker bh)
              (odds ba) (bookmaker ba) s) as [_ A]; [lra |].
  destruct A as (opp & label & s1 & Ht & Hc & F).
  { rewrite <- !negb_orb in G. apply negb_true_iff in G. exact G. }
  exists opp, label, s1.
  split; [exact Ht |].
  split; [unfold bind; rewrite Hc; reflexivity |].
  intuition.
Qed.

(** [scan_game] never raises, and leaves the thresholds alone. *)
Lemma scan_game_total (W : World) (game_data : Game) (s : State) :
  exists r s',
    scan_game W game_data s = (Ok r, s')
    /\ min_profit_threshold (this s') = min_profit_threshold (this s)
    /\ max_profit_threshold (this s') = max_profit_threshold (this s).
Proof.
  destruct (accepted (this s) game_data) eqn:G.
  - destruct (scan_game_accepted W game_data s G)
      as (opp & label & s1 & Ht & Hs & _ & _ & Hd).
    exists (Some opp), (remember opp (tick s1)).
    split; [exact Hs |]. simpl. rewrite Hd. split; reflexivity.
  - exists None, s. split; [now apply scan_game_rejected |].
    split; reflexivity.
Qed.

Lemma accepted_facts (d : ArbitrageDetector) (game_data : Game) :
  accepted d game_data = true ->
  (2 <= List.length (dict_get (g_bookmakers game_data) []))%nat
  /\ 0 < best_home_price game_data
  /\ 0 < best_away_price game_data
  /\ 0 < total_probability game_data
  /\ total_probability game_data < 1
  /\ min_profit_threshold d <= profit_fraction game_data
  /\ profit_fraction game_data <= max_profit_threshold d.
Proof.
  unfold accepted. intro G.
  repeat (apply andb_true_iff in G; destruct G as [G ?]).
  repeat match goal with
  | H : negb _ = true |- _ => apply negb_true_iff in H
  end.
  match goal with
  | H : _ || _ = false |- _ =>
      apply orb_false_iff in H; destruct H as [Zh Za]
  end.
  apply Qeq_bool_false in Zh, Za.
  destruct (best_price_pos game_data) as [Ph Pa].
  pose proof (total_probability_pos game_data Zh Za).
  repeat match goal with
  | H : Qltb _ _ = false |- _ => apply Qltb_ge in H
  | H : Qle_bool _ _ = false |- _ => apply Qle_bool_gt in H
  | H : (_ <? _)%nat = false |- _ => apply Nat.ltb_ge in H
  end.
  auto 10.
Qed.

(** What a successful [scan_game] tells about the game and the result. *)
Lemma scan_game_some (W : World) (game_data : Game) (s s' : State)
    (opp : ArbitrageOpportunity) :
  scan_game W game_data s = (Ok (Some opp), s') ->
  accepted (this s) game_data = true
  /\ opportunity_of game_data opp
  /\ exists s1,
       _assess_time_sensitivity W game_data (profit_fraction game_data) s
       = (Ok (time_sensitivity opp), s1)
       /\ s' = remember opp (tick s1).
Proof.
  intro H. destruct (accepted (this s) game_data) eqn:G.
  - destruct (scan_game_accepted W game_data s G)
      as (opp' & label & s1 & Ht & Hs & Ho & Hl & _).
    rewrite Hs in H. injection H as -> <-.
    split; [reflexivity |]. split; [exact Ho |].
    exists s1. rewrite Hl. auto.
  - rewrite (scan_game_rejected W game_data s G) in H. discriminate H.
Qed.

(** ** C3: the bookmaker gate *)

(** C3, as stated, fails: every quote of this game comes from DraftKings,
    the second bookmaker offering no head-to-head market, and the game is
    still evaluated and accepted. *)
Lemma single_source_game_accepted :
  quote_sources Sample.one_source_game = ["DraftKings"]
  /\ exists opp s',
       scan_game Sample.world Sample.one_source_game Sample.start
       = (Ok (Some opp), s').
Proof.
  split; [reflexivity |].
  destruct (scan_game_accepted Sample.world Sample.one_source_game
              Sample.start eq_refl) as (opp & _ & s1 & _ & Hs & _).
  now exists opp, (remember opp (tick s1)).
Qed.

(** C3, amended: the gate counts the entries of the game's bookmaker list,
    not the bookmakers its quotes come from: for every game whose list has
    fewer than 2 entries, whatever the quotes and prices of the one entry,
    [scan_game] returns None. *)
Theorem scan_game_needs_two_bookmaker_entries (W : World)
    (game_data : Game) (s : State) :
  (List.length (dict_get (g_bookmakers game_data) []) < 2)%nat ->
  scan_game W game_data s = (Ok None, s).
Proof.
  intro H. apply scan_game_rejected.
  unfold accepted. apply Nat.ltb_lt in H. rewrite H. reflexivity.
Qed.

Lemma scan_game_one_bookmaker_entry :
  scan_game Sample.world Sample.one_book_game Sample.start
  = (Ok None, Sample.start).
Proof.
  apply (scan_game_needs_two_bookmaker_entries
           Sample.world Sample.one_book_game Sample.start).
  simpl. lia.
Defined.

(** ** C4: the stake fields *)

(** C4, as stated, fails: the stake fields of the record are percentages
    of the bankroll; for the demo game both exceed 1 and they sum to 100. *)
Lemma stake_fields_are_percentages :
  exists opp s',
    scan_game Sample.world Sample.arb_game_1 Sample.start
    = (Ok (Some opp), s')
    /\ 1 < stake_home opp /\ 1 < stake_away opp
    /\ stake_home opp + stake_away opp == 100.
Proof.
  destruct (scan_game_accepted Sample.world Sample.arb_game_1
              Sample.start eq_refl)
    as (opp & _ & s1 & _ & Hs & Ho & _).
  exists opp, (remember opp (tick s1)).
  split; [exact Hs |].
  destruct Ho as (_ & _ & _ & _ & _ & _ & -> & ->).
  vm_compute. repeat split; discriminate.
Qed.

(** C4, amended: the fields [stake_home] and [stake_away] of every record
    produced by a successful scan are percentages: each lies in [0,100]
    and they sum to 100, so that the fractions [stake/100] which
    [calculate_optimal_stakes] reads lie in [0,1] and sum to 1. *)
Theorem stake_percentages_sum_to_100 (W : World) (game_data : Game)
    (s s' : State) (opp : ArbitrageOpportunity) :
  scan_game W game_data s = (Ok (Some opp), s') ->
  (0 <= stake_home opp /\ stake_home opp <= 100)
  /\ (0 <= stake_away opp /\ stake_away opp <= 100)
  /\ stake_home opp + stake_away opp == 100
  /\ (0 <= stake_home opp / 100 /\ stake_home opp / 100 <= 1)
  /\ (0 <= stake_away opp / 100 /\ stake_away opp / 100 <= 1)
  /\ stake_home opp / 100 + stake_away opp / 100 == 1.
Proof.
  intro H. apply scan_game_some in H. destruct H as (G & Ho & _).
  apply accepted_facts in G.
  destruct G as (_ & Ph & Pa & Pt & _).
  destruct Ho as (_ & _ & _ & _ & _ & _ & -> & ->).
  apply implied_probability_pos in Ph, Pa.
  unfold total_probability in *.
  set (hp := implied_probability (best_home_price game_data)) in *.
  set (ap := implied_probability (best_away_price game_data)) in *.
  assert (Fh : 0 <= hp / (hp + ap)) by (apply Qdiv_nonneg; lra).
  assert (Fa : 0 <= ap / (hp + ap)) by (apply Qdiv_nonneg; lra).
  assert (F1 : hp / (hp + ap) + ap / (hp + ap) == 1) by (field; lra).
  assert (Eh : hp / (hp + ap) * 100 / 100 == hp / (hp + ap))
    by (field; lra).
  assert (Ea : ap / (hp + ap) * 100 / 100 == ap / (hp + ap))
    by (field; lra).
  rewrite Eh, Ea.
  repeat split; lra.
Qed.

Lemma stake_percentages_demo_game :
  exists opp,
    fst (scan_game Sample.world Sample.arb_game_1 Sample.start)
    = Ok (Some opp)
    /\ stake_home opp + stake_away opp == 100.
Proof.
  destruct (scan_game Sample.world Sample.arb_game_1 Sample.start)
    as [r s'] eqn:E.
  assert (R : exists opp, r = Ok (Some opp)).
  { vm_compute in E. injection E as <- _. eexists. reflexivity. }
  destruct R as [opp ->]. exists opp. split; [reflexivity |].
  apply (stake_percentages_sum_to_100
           Sample.world Sample.arb_game_1 Sample.start s' opp E).
Defined.

(** ** C5: no arbitrage at a total of 1 or more *)



(** ** C7: prices of at most 0 are never the best price *)

(** C7: each best price is the unset sentinel 0 or the strictly positive
    price of a quote naming that side; when every quote naming one side has
    a price of at most 0, [scan_game] returns None; so the prices handed to
    the conversion through [scan_game] are positive, and so are the prices
    of every opportunity. *)
Theorem nonpositive_prices_are_never_best (W : World) (game_data : Game)
    (s : State) :
  let home := dict_get (g_home_team game_data) "" in
  let away := dict_get (g_away_team game_data) "" in
  (chosen home (quotes game_data) (fst (best_prices game_data))
   /\ chosen away (quotes game_data) (snd (best_prices game_data)))
  /\ ((forall q, In q (quotes game_data) ->
         quote_names home q = true -> quote_price q <= 0) ->
      scan_game W game_data s = (Ok None, s))
  /\ ((forall q, In q (quotes game_data) ->
         quote_names away q = true -> quote_price q <= 0) ->
      scan_game W game_data s = (Ok None, s))
  /\ ((~ best_home_price game_data == 0 -> 0 < best_home_price game_data)
      /\ (~ best_away_price game_data == 0 -> 0 < best_away_price game_data))
  /\ (forall opp s',
        scan_game W game_data s = (Ok (Some opp), s') ->
        0 < best_home_odds opp /\ 0 < best_away_odds opp).
Proof.
  intros home away.
  split; [apply best_prices_chosen |].
  split; [| split; [| split; [apply best_price_pos |]]].
  - intro H. apply scan_game_rejected. unfold accepted, best_home_price.
    rewrite best_prices_quotes. fold home away.
    rewrite (fold_visit_quote_home_unset home away _ (unset, unset) H
               eq_refl).
    simpl. rewrite andb_false_r. reflexivity.
  - intro H. apply scan_game_rejected. unfold accepted, best_away_price.
    rewrite best_prices_quotes. fold home away.
    rewrite (fold_visit_quote_away_unset home away _ (unset, unset) H
               eq_refl).
    simpl. rewrite orb_true_r, andb_false_r. reflexivity.
  - intros opp s' H. apply scan_game_some in H.
    destruct H as (G & Ho & _). apply accepted_facts in G.
    destruct Ho as (_ & -> & _ & -> & _). intuition.
Qed.

(** ** The descending stable sort *)

Section SortFacts.
Context {A : Type}.
Variable key : A -> Q.







End SortFacts.

(** ** Scanning a list of games *)



(** ** C9: the order of the opportunities of a scan *)


(** ** C8: what raises *)




(** ** C2: the payouts of the two sides *)





(** ** C7 on a game whose home side is quoted at negative prices only *)

Lemma negative_home_prices_give_none :
  scan_game Sample.world Sample.negative_home_game Sample.start
  = (Ok None, Sample.start).
Proof.
  apply (proj1 (proj2 (nonpositive_prices_are_never_best
                         Sample.world Sample.negative_home_game
                         Sample.start))).
  intros q I N. simpl in I.
  repeat (destruct I as [<- | I]; [try discriminate N |]);
    try contradiction; vm_compute; discriminate.
Defined.

(** * Further properties of the detector *)

(** ** What the loop of [scan_game] finds *)

Lemma fst_visit_quote (ht at_ : string) (best : Best * Best) (q : Quote) :
  fst (visit_quote ht at_ best q) = side_step ht (fst best) q.
Proof.
  destruct best as [bh ba].
  unfold visit_quote, visit_outcome, side_step, quote_names, quote_price.
  simpl.
  destruct (String.eqb (dict_get (o_name (snd q)) "") ht
            && Qltb (odds bh) (dict_get (o_price (snd q)) 0));
    [reflexivity |].
  destruct (String.eqb (dict_get (o_name (snd q)) "") at_
            && Qltb (odds ba) (dict_get (o_price (snd q)) 0));
    reflexivity.
Qed.

Lemma snd_visit_quote (ht at_ : string) (best : Best * Best) (q : Quote) :
  ht <> at_ ->
  snd (visit_quote ht at_ best q) = side_step at_ (snd best) q.
Proof.
  intro D. destruct best as [bh ba].
  unfold visit_quote, visit_outcome, side_step, quote_names, quote_price.
  simpl.
  destruct (String.eqb (dict_get (o_name (snd q)) "") ht) eqn:Nh; simpl.
  - apply String.eqb_eq in Nh.
    destruct (String.eqb (dict_get (o_name (snd q)) "") at_) eqn:Na.
    + apply String.eqb_eq in Na. congruence.
    + simpl.
      destruct (Qltb (odds bh) (dict_get (o_price (snd q)) 0));
        reflexivity.
  - destruct (String.eqb (dict_get (o_name (snd q)) "") at_
              && Qltb (odds ba) (dict_get (o_price (snd q)) 0));
      reflexivity.
Qed.

Lemma fst_fold_visit_quote (ht at_ : string) (qs : list Quote)
    (best : Best * Best) :
  fst (fold_left (visit_quote ht at_) qs best)
  = fold_left (side_step ht) qs (fst best).
Proof.
  revert best. induction qs as [| q qs IH]; intro best; simpl.
  - reflexivity.
  - rewrite IH, fst_visit_quote. reflexivity.
Qed.

Lemma snd_fold_visit_quote (ht at_ : string) (qs : list Quote)
    (best : Best * Best) :
  ht <> at_ ->
  snd (fold_left (visit_quote ht at_) qs best)
  = fold_left (side_step at_) qs (snd best).
Proof.
  intro D. revert best. induction qs as [| q qs IH]; intro best; simpl.
  - reflexivity.
  - rewrite IH, snd_visit_quote by exact D. reflexivity.
Qed.

Lemma best_of_nonneg (team : string) (qs : list Quote) (b : Best) :
  best_of team qs b -> 0 <= odds b.
Proof.
  intros [[-> _] | [P _]]; simpl; lra.
Qed.

(** Every quote of [qs] naming [team] is at most the best. *)
Lemma best_of_upper (team : string) (qs : list Quote) (b : Best) :
  best_of team qs b ->
  forall x, In x qs -> quote_names team x = true ->
            quote_price x <= odds b.
Proof.
  intros [[-> H] | [P (pre & q & post & -> & Nq & Pq & _ & Hpre & Hpost)]]
         x I N.
  - simpl. now apply H.
  - apply in_app_or in I. destruct I as [I | [<- | I]].
    + apply Qlt_le_weak. now apply Hpre.
    + rewrite Pq. apply Qle_refl.
    + now apply Hpost.
Qed.

Lemma side_step_best_of (team : string) (seen : list Quote) (b : Best)
    (q : Quote) :
  best_of team seen b ->
  best_of team (seen ++ [q]) (side_step team b q).
Proof.
  intro H. pose proof (best_of_nonneg _ _ _ H) as P0.
  pose proof (best_of_upper _ _ _ H) as U.
  unfold side_step.
  destruct (quote_names team q) eqn:Nq; simpl.
  - destruct (Qltb (odds b) (quote_price q)) eqn:L.
    + apply Qltb_lt in L. right. simpl. split; [lra |].
      exists seen, q, []. repeat split; auto.
      * intros x I N. specialize (U x I N). simpl. lra.
      * intros x [].
    + apply Qltb_ge in L.
      destruct H as [[-> H] | [P (pre & q0 & post & -> & F)]].
      * left. split; [reflexivity |].
        intros x I N. apply in_app_or in I.
        destruct I as [I | [<- | []]]; [now apply H | exact L].
      * right. split; [exact P |].
        exists pre, q0, (post ++ [q])%list.
        destruct F as (N0 & P0' & B0 & Hpre & Hpost).
        split; [now rewrite <- app_assoc |].
        repeat split; auto.
        intros x I N. apply in_app_or in I.
        destruct I as [I | [<- | []]]; [now apply Hpost | exact L].
  - destruct H as [[-> H] | [P (pre & q0 & post & -> & F)]].
    + left. split; [reflexivity |].
      intros x I N. apply in_app_or in I.
      destruct I as [I | [<- | []]]; [now apply H | congruence].
    + right. split; [exact P |].
      exists pre, q0, (post ++ [q])%list.
      destruct F as (N0 & P0' & B0 & Hpre & Hpost).
      split; [now rewrite <- app_assoc |].
      repeat split; auto.
      intros x I N. apply in_app_or in I.
      destruct I as [I | [<- | []]]; [now apply Hpost | congruence].
Qed.

Lemma fold_side_step_best_of (team : string) (qs seen : list Quote)
    (b : Best) :
  best_of team seen b ->
  best_of team (seen ++ qs) (fold_left (side_step team) qs b).
Proof.
  revert seen b. induction qs as [| q qs IH]; intros seen b H; simpl.
  - now rewrite app_nil_r.
  - replace (seen ++ q :: qs)%list with ((seen ++ [q]) ++ qs)%list
      by (now rewrite <- app_assoc).
    apply IH, side_step_best_of, H.
Qed.

Lemma best_of_nil (team : string) : best_of team [] unset.
Proof.
  left. split; [reflexivity |]. intros x [].
Qed.

Lemma best_prices_are_first_maxima_aux (game_data : Game) :
  best_of (dict_get (g_home_team game_data) "") (quotes game_data)
          (fst (best_prices game_data))
  /\ (dict_get (g_home_team game_data) ""
      <> dict_get (g_away_team game_data) "" ->
      best_of (dict_get (g_away_team game_data) "") (quotes game_data)
              (snd (best_prices game_data))).
Proof.
  rewrite best_prices_quotes. split.
  - rewrite fst_fold_visit_quote.
    apply (fold_side_step_best_of _ (quotes game_data) []).
    apply best_of_nil.
  - intro D. rewrite snd_fold_visit_quote by exact D.
    apply (fold_side_step_best_of _ (quotes game_data) []).
    apply best_of_nil.
Qed.

(** X1: the best home price is the highest positive price among the
    head-to-head quotes naming the home team, credited to the first
    bookmaker, in visiting order, that quotes it; it stays unset exactly
    when no such quote has a positive price.  The same holds of the away
    side when the two team names differ. *)
Theorem best_prices_are_first_maxima (game_data : Game) :
  let home := dict_get (g_home_team game_data) "" in
  let away := dict_get (g_away_team game_data) "" in
  best_of home (quotes game_data) (fst (best_prices game_data))
  /\ (home <> away ->
      best_of away (quotes game_data) (snd (best_prices game_data))).
Proof.
  intros home away.
  destruct (best_prices_are_first_maxima_aux game_data) as [Hh Ha].
  split; [exact Hh | exact Ha].
Qed.

(** ** The order of the bookmakers does not matter *)

Lemma best_of_value_le (team : string) (qs1 qs2 : list Quote)
    (b1 b2 : Best) :
  best_of team qs1 b1 -> best_of team qs2 b2 ->
  (forall x, In x qs1 -> In x qs2) ->
  odds b1 <= odds b2.
Proof.
  intros H1 H2 I.
  destruct H1 as [[-> _] | [_ (pre & q & post & E & N & P & _)]].
  - simpl. eapply best_of_nonneg. exact H2.
  - rewrite <- P. apply (best_of_upper _ _ _ H2); [| exact N].
    apply I. rewrite E. apply in_or_app. right. now left.
Qed.

Lemma best_of_value_eq (team : string) (qs1 qs2 : list Quote)
    (b1 b2 : Best) :
  best_of team qs1 b1 -> best_of team qs2 b2 ->
  Permutation qs1 qs2 ->
  odds b1 == odds b2.
Proof.
  intros H1 H2 P. apply Qle_antisym.
  - apply (best_of_value_le team qs1 qs2); auto.
    intros x. apply Permutation_in. exact P.
  - apply (best_of_value_le team qs2 qs1); auto.
    intros x. apply Permutation_in. apply Permutation_sym. exact P.
Qed.

Lemma Qltb_wd (x x' y y' : Q) :
  x == x' -> y == y' -> Qltb x y = Qltb x' y'.
Proof.
  intros Ex Ey. unfold Qltb. now rewrite Ex, Ey.
Qed.

Lemma implied_probability_wd (x y : Q) :
  x == y -> implied_probability x == implied_probability y.
Proof.
  intro E. unfold implied_probability.
  rewrite (Qltb_wd 0 0 x y (Qeq_refl 0) E).
  assert (L : Qle_bool 2 x = Qle_bool 2 y) by now rewrite E.
  rewrite L.
  destruct (Qle_bool 2 y); [now rewrite E |].
  destruct (Qltb 0 y); now rewrite E.
Qed.

Lemma accepted_wd (d : ArbitrageDetector) (g1 g2 : Game) :
  List.length (dict_get (g_bookmakers g1) [])
  = List.length (dict_get (g_bookmakers g2) []) ->
  best_home_price g1 == best_home_price g2 ->
  best_away_price g1 == best_away_price g2 ->
  accepted d g1 = accepted d g2
  /\ profit_fraction g1 == profit_fraction g2.
Proof.
  intros L Eh Ea.
  assert (T : total_probability g1 == total_probability g2).
  { unfold total_probability.
    now rewrite (implied_probability_wd _ _ Eh),
                (implied_probability_wd _ _ Ea). }
  assert (P : profit_fraction g1 == profit_fraction g2).
  { unfold profit_fraction. now rewrite T. }
  split; [| exact P].
  unfold accepted. rewrite L.
  rewrite (Qltb_wd _ _ _ _ P (Qeq_refl (min_profit_threshold d))).
  rewrite (Qltb_wd _ _ _ _ (Qeq_refl (max_profit_threshold d)) P).
  assert (Zh : Qeq_bool (best_home_price g1) 0
               = Qeq_bool (best_home_price g2) 0) by now rewrite Eh.
  assert (Za : Qeq_bool (best_away_price g1) 0
               = Qeq_bool (best_away_price g2) 0) by now rewrite Ea.
  assert (T1 : Qle_bool 1 (total_probability g1)
               = Qle_bool 1 (total_probability g2)) by now rewrite T.
  now rewrite Zh, Za, T1.
Qed.

(** X2: listing the bookmakers of a game in another order changes neither
    the best price of either side, nor the profit, nor whether the game is
    accepted (team names equal in both games and different from one
    another). *)
Theorem bookmaker_order_is_irrelevant (d : ArbitrageDetector)
    (g1 g2 : Game) :
  dict_get (g_home_team g1) "" = dict_get (g_home_team g2) "" ->
  dict_get (g_away_team g1) "" = dict_get (g_away_team g2) "" ->
  dict_get (g_home_team g1) "" <> dict_get (g_away_team g1) "" ->
  Permutation (dict_get (g_bookmakers g1) [])
              (dict_get (g_bookmakers g2) []) ->
  best_home_price g1 == best_home_price g2
  /\ best_away_price g1 == best_away_price g2
  /\ profit_fraction g1 == profit_fraction g2
  /\ accepted d g1 = accepted d g2.
Proof.
  intros Hh Ha D P.
  assert (PQ : Permutation (quotes g1) (quotes g2)).
  { unfold quotes. now apply Permutation_flat_map. }
  destruct (best_prices_are_first_maxima_aux g1) as [B1h B1a].
  destruct (best_prices_are_first_maxima_aux g2) as [B2h B2a].
  specialize (B1a D).
  rewrite <- Hh in B2h. rewrite <- Hh, <- Ha in B2a. specialize (B2a D).
  assert (Eh : best_home_price g1 == best_home_price g2)
    by (eapply best_of_value_eq; eassumption).
  assert (Ea : best_away_price g1 == best_away_price g2)
    by (eapply best_of_value_eq; eassumption).
  destruct (accepted_wd d g1 g2 (Permutation_length P) Eh Ea) as [A Pf].
  auto.
Qed.

Lemma bookmaker_order_demo :
  best_home_price Sample.arb_game_1 == best_home_price Demo.arb_game_1_swapped
  /\ best_away_price Sample.arb_game_1
     == best_away_price Demo.arb_game_1_swapped
  /\ profit_fraction Sample.arb_game_1
     == profit_fraction Demo.arb_game_1_swapped
  /\ accepted default_detector Sample.arb_game_1
     = accepted default_detector Demo.arb_game_1_swapped.
Proof.
  apply (bookmaker_order_is_irrelevant default_detector
           Sample.arb_game_1 Demo.arb_game_1_swapped).
  - reflexivity.
  - reflexivity.
  - discriminate.
  - apply perm_swap.
Defined.

(** ** The record of an opportunity *)

Lemma calculate_arbitrage_record (W : World) (game_data : Game)
    (ho : Q) (hb : string) (ao : Q) (ab : string) (s : State) :
  let hp := implied_probability ho in
  let ap := implied_probability ao in
  let profit_pct := 1 / (hp + ap) - 1 in
  ~ hp + ap == 0 ->
  Qle_bool 1 (hp + ap)
  || Qltb profit_pct (min_profit_threshold (this s))
  || Qltb (max_profit_threshold (this s)) profit_pct = false ->
  exists label s1,
    _assess_time_sensitivity W game_data profit_pct s = (Ok label, s1)
    /\ this s1 = this s
    /\ _calculate_arbitrage W game_data ho hb ao ab s
       = (Ok (Some
            {| game_id := dict_get (g_id game_data) "";
               sport := dict_get (g_sport_title game_data) "";
               home_team := dict_get (g_home_team game_data) "";
               away_team := dict_get (g_away_team game_data) "";
               commence_time := dict_get (g_commence_time game_data) "";
               best_home_odds := ho;
               best_home_bookmaker := hb;
               best_away_odds := ao;
               best_away_bookmaker := ab;
               profit_percentage := profit_pct * 100;
               stake_home := hp / (hp + ap) * 100;
               stake_away := ap / (hp + ap) * 100;
               guaranteed_return := profit_pct * 100;
               risk_level := _assess_risk profit_pct ho ao hb ab;
               time_sensitivity := label;
               detected_at := isoformat W (wall_clock W (clock s1)) |}),
          tick s1).
Proof.
  intros hp ap profit_pct NZ G.
  unfold _calculate_arbitrage.
  rewrite !odds_to_probability_total. fold hp ap. run.
  apply orb_false_iff in G. destruct G as [G G3].
  apply orb_false_iff in G. destruct G as [G1 G2].
  rewrite G1, truediv_ok by exact NZ. run.
  fold profit_pct. rewrite G2, G3, !truediv_ok by exact NZ. run.
  destruct (assess_time_sensitivity_total W game_data profit_pct s)
    as (label & s1 & Ht & Hd).
  rewrite Ht. unfold now.
  exists label, s1. repeat split; [exact Hd].
Qed.

(** Every field of the record of a successful scan. *)
Lemma scan_game_record (W : World) (game_data : Game) (s s' : State)
    (opp : ArbitrageOpportunity) :
  scan_game W game_data s = (Ok (Some opp), s') ->
  exists label s1,
    _assess_time_sensitivity W game_data (profit_fraction game_data) s
    = (Ok label, s1)
    /\ this s1 = this s
    /\ s' = remember opp (tick s1)
    /\ opp
       = {| game_id := dict_get (g_id game_data) "";
            sport := dict_get (g_sport_title game_data) "";
            home_team := dict_get (g_home_team game_data) "";
            away_team := dict_get (g_away_team game_data) "";
            commence_time := dict_get (g_commence_time game_data) "";
            best_home_odds := best_home_price game_data;
            best_home_bookmaker := bookmaker (fst (best_prices game_data));
            best_away_odds := best_away_price game_data;
            best_away_bookmaker := bookmaker (snd (best_prices game_data));
            profit_percentage := profit_fraction game_data * 100;
            stake_home :=
              implied_probability (best_home_price game_data)
              / total_probability game_data * 100;
            stake_away :=
              implied_probability (best_away_price game_data)
              / total_probability game_data * 100;
            guaranteed_return := profit_fraction game_data * 100;
            risk_level :=
              _assess_risk (profit_fraction game_data)
                (best_home_price game_data) (best_away_price game_data)
                (bookmaker (fst (best_prices game_data)))
                (bookmaker (snd (best_prices game_data)));
            time_sensitivity := label;
            detected_at := isoformat W (wall_clock W (clock s1)) |}.
Proof.
  intro H. pose proof (scan_game_some W game_data s s' opp H) as (G & _).
  pose proof (accepted_facts _ _ G) as (_ & _ & _ & Pt & _).
  revert H G. unfold accepted, scan_game.
  destruct (List.length (dict_get (g_bookmakers game_data) []) <? 2)%nat;
    [discriminate 2 |].
  unfold profit_fraction, total_probability, best_home_price,
    best_away_price in *.
  destruct (best_prices game_data) as [bh ba]. simpl in *.
  destruct (Qeq_bool (odds bh) 0) eqn:Zh; [discriminate 2 |].
  destruct (Qeq_bool (odds ba) 0) eqn:Za; [discriminate 2 |].
  simpl. intros H G.
  rewrite <- !negb_orb in G. apply negb_true_iff in G.
  destruct (calculate_arbitrage_record W game_data (odds bh) (bookmaker bh)
              (odds ba) (bookmaker ba) s) as (label & s1 & Ht & Hd & Hc);
    [lra | exact G |].
  unfold bind in H. rewrite Hc in H. unfold modify, ret in H.
  injection H as Ho Hs.
  exists label, s1. rewrite <- Ho in *. auto.
Qed.

(** X4: the profit of every opportunity is positive and lies between the
    two thresholds (as percentages, bounds included); [guaranteed_return]
    repeats it; the identifying fields are those of the game, an absent
    key giving the empty string. *)
Theorem opportunity_profit_within_thresholds (W : World)
    (game_data : Game) (s s' : State) (opp : ArbitrageOpportunity) :
  scan_game W game_data s = (Ok (Some opp), s') ->
  0 < profit_percentage opp
  /\ min_profit_threshold (this s) * 100 <= profit_percentage opp
  /\ profit_percentage opp <= max_profit_threshold (this s) * 100
  /\ guaranteed_return opp = profit_percentage opp
  /\ game_id opp = dict_get (g_id game_data) ""
  /\ sport opp = dict_get (g_sport_title game_data) ""
  /\ home_team opp = dict_get (g_home_team game_data) ""
  /\ away_team opp = dict_get (g_away_team game_data) ""
  /\ commence_time opp = dict_get (g_commence_time game_data) "".
Proof.
  intro H.
  pose proof (scan_game_some W game_data s s' opp H) as (G & _).
  apply accepted_facts in G.
  destruct G as (_ & _ & _ & Pt & Lt & Lo & Hi).
  destruct (scan_game_record W game_data s s' opp H)
    as (label & s1 & _ & _ & _ & ->).
  simpl.
  assert (P : 0 < profit_fraction game_data).
  { unfold profit_fraction.
    assert (1 < 1 / total_probability game_data)
      by (apply Qlt_shift_div_l; lra).
    lra. }
  repeat split; try reflexivity; lra.
Qed.

Lemma demo_game_profit_within_thresholds :
  exists opp,
    fst (scan_game Sample.world Sample.arb_game_1 Sample.start)
    = Ok (Some opp)
    /\ 0 < profit_percentage opp
    /\ profit_percentage opp <= 15
    /\ game_id opp = "arb_game_1".
Proof.
  destruct (scan_game Sample.world Sample.arb_game_1 Sample.start)
    as [r s'] eqn:E.
  assert (R : exists opp, r = Ok (Some opp)).
  { vm_compute in E. injection E as <- _. eexists. reflexivity. }
  destruct R as [opp ->]. exists opp. split; [reflexivity |].
  destruct (opportunity_profit_within_thresholds
              Sample.world Sample.arb_game_1 Sample.start s' opp E)
    as (P & _ & Hi & _ & Id & _).
  split; [exact P |]. split; [| exact Id].
  eapply Qle_trans; [exact Hi |]. vm_compute. discriminate.
Defined.

(** ** The two classifications *)

(** X5: an opportunity is rated "high" exactly when its profit exceeds 5
    percent, and "low" exactly when its profit is at most 5 percent, both
    best prices are at least 1.1 and both bookmakers are among the five
    known ones; every other opportunity is rated "medium". *)
Theorem risk_level_of_opportunity (W : World) (game_data : Game)
    (s s' : State) (opp : ArbitrageOpportunity) :
  scan_game W game_data s = (Ok (Some opp), s') ->
  (risk_level opp = "high" <-> 5 < profit_percentage opp)
  /\ (risk_level opp = "low" <->
      profit_percentage opp <= 5
      /\ 11 # 10 <= best_home_odds opp
      /\ 11 # 10 <= best_away_odds opp
      /\ str_in (best_home_bookmaker opp) known_bookmakers = true
      /\ str_in (best_away_bookmaker opp) known_bookmakers = true)
  /\ (risk_level opp = "high" \/ risk_level opp = "medium"
      \/ risk_level opp = "low").
Proof.
  intro H.
  destruct (scan_game_record W game_data s s' opp H)
    as (label & s1 & _ & _ & _ & ->).
  cbn [risk_level profit_percentage best_home_odds best_away_odds
       best_home_bookmaker best_away_bookmaker].
  unfold _assess_risk.
  set (pf := profit_fraction game_data).
  destruct (Qltb (5 # 100) pf) eqn:E1;
    [apply Qltb_lt in E1 | apply Qltb_ge in E1].
  - split; [split; [intros _; lra | reflexivity] |].
    split; [split; [discriminate | intros [L _]; lra] | auto].
  - destruct (Qltb (best_home_price game_data) (11 # 10)) eqn:E2;
      [apply Qltb_lt in E2 | apply Qltb_ge in E2]; cbn [orb negb].
    { split; [split; [discriminate | intro; lra] |].
      split; [split; [discriminate | intros (_ & L & _); lra] | auto]. }
    destruct (Qltb (best_away_price game_data) (11 # 10)) eqn:E3;
      [apply Qltb_lt in E3 | apply Qltb_ge in E3]; cbn [orb negb].
    { split; [split; [discriminate | intro; lra] |].
      split; [split; [discriminate | intros (_ & _ & L & _); lra] | auto]. }
    destruct (str_in (bookmaker (fst (best_prices game_data)))
                known_bookmakers) eqn:K1; cbn [orb negb].
    2:{ split; [split; [discriminate | intro; lra] |].
        split; [split; [discriminate | intros (_ & _ & _ & K & _);
                                         discriminate K] | auto]. }
    destruct (str_in (bookmaker (snd (best_prices game_data)))
                known_bookmakers) eqn:K2; cbn [orb negb].
    2:{ split; [split; [discriminate | intro; lra] |].
        split; [split; [discriminate | intros (_ & _ & _ & _ & K);
                                         discriminate K] | auto]. }
    split; [split; [discriminate | intro; lra] |].
    split; [| auto].
    split; [intros _ | reflexivity].
    repeat split; try assumption; lra.
Qed.

Lemma assess_time_sensitivity_parsed (W : World) (game_data : Game)
    (profit_pct : Q) (s : State) (t : Q) :
  to_datetime W (g_commence_time game_data) = Ok t ->
  _assess_time_sensitivity W game_data profit_pct s
  = (Ok (if Qltb (3 # 100) profit_pct then "urgent"
         else if Qltb (hours_until_at W (clock s) t) 2 then "urgent"
         else if Qltb 48 (hours_until_at W (clock s) t) then "stable"
         else "moderate"),
     tick s).
Proof.
  intro P.
  unfold _assess_time_sensitivity, try_except, bind, lift, now, ret.
  rewrite P, truediv_ok by lra. fold (hours_until_at W (clock s) t).
  destruct (Qltb (3 # 100) profit_pct); [reflexivity |].
  destruct (Qltb (hours_until_at W (clock s) t) 2); [reflexivity |].
  destruct (Qltb 48 (hours_until_at W (clock s) t)); reflexivity.
Qed.

(** X6: when the commence time parses, an opportunity is "urgent" exactly
    when its profit exceeds 3 percent or the game starts in less than 2
    hours, "stable" exactly when its profit is at most 3 percent and the
    game starts in more than 48 hours, and "moderate" otherwise; the
    clock is read twice (once for the hours, once for [detected_at]). *)
Theorem time_sensitivity_of_opportunity (W : World) (game_data : Game)
    (s s' : State) (opp : ArbitrageOpportunity) (t : Q) :
  scan_game W game_data s = (Ok (Some opp), s') ->
  to_datetime W (g_commence_time game_data) = Ok t ->
  let hours := hours_until_at W (clock s) t in
  (time_sensitivity opp = "urgent" <->
   3 < profit_percentage opp \/ hours < 2)
  /\ (time_sensitivity opp = "stable" <->
      profit_percentage opp <= 3 /\ 48 < hours)
  /\ (time_sensitivity opp = "moderate" <->
      profit_percentage opp <= 3 /\ 2 <= hours /\ hours <= 48)
  /\ clock s' = Datatypes.S (Datatypes.S (clock s))
  /\ detected_at opp
     = isoformat W (wall_clock W (Datatypes.S (clock s))).
Proof.
  intros H P hours.
  destruct (scan_game_record W game_data s s' opp H)
    as (label & s1 & Ht & _ & -> & ->).
  rewrite (assess_time_sensitivity_parsed W game_data _ s t P) in Ht.
  injection Ht as <- <-. simpl. fold hours.
  set (pf := profit_fraction game_data).
  destruct (Qltb (3 # 100) pf) eqn:E1;
    [apply Qltb_lt in E1 | apply Qltb_ge in E1].
  { repeat split; try reflexivity; try discriminate;
      try (intros; lra); try (intros [? ?]; lra). }
  destruct (Qltb hours 2) eqn:E2;
    [apply Qltb_lt in E2 | apply Qltb_ge in E2].
  { repeat split; try reflexivity; try discriminate;
      try (intros; lra); try (intros [? ?]; lra);
      try (intros (? & ? & ?); lra). }
  destruct (Qltb 48 hours) eqn:E3;
    [apply Qltb_lt in E3 | apply Qltb_ge in E3].
  - repeat split; try reflexivity; try discriminate;
      try (intros [? | ?]; lra); try (intros (? & ? & ?); lra); lra.
  - repeat split; try reflexivity; try discriminate;
      try (intros [? | ?]; lra); try (intros [? ?]; lra); lra.
Qed.

Lemma demo_game_risk_is_high :
  exists opp,
    fst (scan_game Sample.world Sample.arb_game_1 Sample.start)
    = Ok (Some opp)
    /\ risk_level opp = "high".
Proof.
  destruct (scan_game Sample.world Sample.arb_game_1 Sample.start)
    as [r s'] eqn:E.
  assert (R : exists opp, r = Ok (Some opp) /\ 5 < profit_percentage opp).
  { vm_compute in E. injection E as <- _. eexists.
    split; reflexivity. }
  destruct R as (opp & -> & P). exists opp. split; [reflexivity |].
  apply (proj1 (risk_level_of_opportunity
                  Sample.world Sample.arb_game_1 Sample.start s' opp E)).
  exact P.
Defined.

Lemma two_percent_game_is_stable :
  exists opp,
    fst (scan_game Sample.world (Sample.two_percent "g") Sample.start)
    = Ok (Some opp)
    /\ time_sensitivity opp = "stable".
Proof.
  destruct (scan_game Sample.world (Sample.two_percent "g") Sample.start)
    as [r s'] eqn:E.
  assert (R : exists opp, r = Ok (Some opp) /\ profit_percentage opp <= 3).
  { vm_compute in E. injection E as <- _. eexists.
    split; [reflexivity | discriminate]. }
  destruct R as (opp & -> & P). exists opp. split; [reflexivity |].
  apply (proj1 (proj2 (time_sensitivity_of_opportunity
                         Sample.world (Sample.two_percent "g")
                         Sample.start s' opp 360000 E eq_refl))).
  split; [exact P | reflexivity].
Defined.

(** ** The history *)



(** ** Counting dictionaries *)

Lemma dict_contains_In (d : Counts) (k : string) :
  dict_contains d k = true <-> In k (map fst d).
Proof.
  induction d as [| [k' v] d IH]; simpl.
  - split; [discriminate | intros []].
  - rewrite orb_true_iff, IH, String.eqb_eq. reflexivity.
Qed.

Lemma dict_getitem_absent (d : Counts) (k : string) :
  dict_contains d k = false -> dict_getitem d k = KeyError k.
Proof.
  induction d as [| [k' v] d IH]; simpl; [reflexivity |].
  intro H. apply orb_false_iff in H. destruct H as [E C].
  rewrite E. now apply IH.
Qed.

Lemma dict_getitem_present (d : Counts) (k : string) :
  dict_contains d k = true -> exists n, dict_getitem d k = Found n.
Proof.
  induction d as [| [k' v] d IH]; simpl; [discriminate |].
  destruct (String.eqb k' k); simpl; [intros _; now exists v | exact IH].
Qed.

Lemma dict_getitem_setitem_same (d : Counts) (k : string) (v : nat) :
  dict_getitem (dict_setitem d k v) k = Found v.
Proof.
  induction d as [| [k' v'] d IH]; simpl.
  - now rewrite String.eqb_refl.
  - destruct (String.eqb k' k) eqn:E; simpl; rewrite E; [reflexivity |].
    exact IH.
Qed.

Lemma dict_getitem_setitem_other (d : Counts) (k k' : string) (v : nat) :
  k' <> k ->
  dict_getitem (dict_setitem d k v) k' = dict_getitem d k'.
Proof.
  intro N. induction d as [| [k0 v0] d IH]; simpl.
  - apply String.eqb_neq in N. rewrite String.eqb_sym in N.
    now rewrite N.
  - destruct (String.eqb k0 k) eqn:E; simpl.
    + apply String.eqb_eq in E. subst k0.
      apply String.eqb_neq in N. rewrite String.eqb_sym in N.
      now rewrite N.
    + destruct (String.eqb k0 k'); [reflexivity | exact IH].
Qed.

Lemma dict_setitem_keys (d : Counts) (k : string) (v : nat) :
  map fst (dict_setitem d k v)
  = if dict_contains d k then map fst d else (map fst d ++ [k])%list.
Proof.
  induction d as [| [k' v'] d IH]; simpl; [reflexivity |].
  destruct (String.eqb k' k) eqn:E; simpl; [reflexivity |].
  rewrite IH. destruct (dict_contains d k); reflexivity.
Qed.

Lemma total_count_setitem_new (d : Counts) (k : string) (v : nat) :
  dict_contains d k = false ->
  total_count (dict_setitem d k v) = (total_count d + v)%nat.
Proof.
  unfold total_count.
  induction d as [| [k' v'] d IH]; simpl; [intros _; lia |].
  intro H. apply orb_false_iff in H. destruct H as [E C].
  rewrite E. simpl. rewrite (IH C). lia.
Qed.

Lemma total_count_setitem_old (d : Counts) (k : string) (n v : nat) :
  dict_getitem d k = Found n ->
  (total_count (dict_setitem d k v) + n = total_count d + v)%nat.
Proof.
  unfold total_count.
  induction d as [| [k' v'] d IH]; simpl; [discriminate |].
  destruct (String.eqb k' k) eqn:E; simpl.
  - intro H. injection H as ->. lia.
  - intro H. specialize (IH H). lia.
Qed.

(** One counting step: it cannot fail, it adds one to the count of its
    key and leaves the other counts alone. *)
Lemma count_one_spec (d : Counts) (k : string) :
  exists d',
    count_one d k = Found d'
    /\ (forall k', count_at d' k'
                   = (count_at d k' + if string_dec k k' then 1 else 0)%nat)
    /\ map fst d'
       = (if dict_contains d k then map fst d else (map fst d ++ [k])%list)
    /\ total_count d' = Datatypes.S (total_count d).
Proof.
  unfold count_one.
  destruct (dict_contains d k) eqn:C; simpl.
  - destruct (dict_getitem_present d k C) as [n G]. rewrite G.
    eexists. split; [reflexivity |].
    split; [| split].
    + intro k'. unfold count_at.
      destruct (string_dec k k') as [<- | N].
      * now rewrite dict_getitem_setitem_same, G.
      * rewrite dict_getitem_setitem_other by congruence. lia.
    + now rewrite dict_setitem_keys, C.
    + pose proof (total_count_setitem_old d k n (n + 1) G). lia.
  - rewrite dict_getitem_setitem_same.
    eexists. split; [reflexivity |].
    split; [| split].
    + intro k'. unfold count_at.
      destruct (string_dec k k') as [<- | N].
      * rewrite dict_getitem_setitem_same, (dict_getitem_absent d k C).
        reflexivity.
      * rewrite !dict_getitem_setitem_other by congruence. lia.
    + rewrite !dict_setitem_keys, C.
      assert (C' : dict_contains (dict_setitem d k 0) k = true).
      { apply dict_contains_In. rewrite dict_setitem_keys, C.
        apply in_or_app. right. now left. }
      now rewrite C'.
    + pose proof (total_count_setitem_old (dict_setitem d k 0) k 0 (0 + 1)
                    (dict_getitem_setitem_same d k 0)).
      rewrite (total_count_setitem_new d k 0 C) in H. lia.
Qed.

Lemma count_all_spec (keys : list string) :
  forall d : Counts,
  NoDup (map fst d) ->
  exists d',
    count_all keys d = Found d'
    /\ (forall k, count_at d' k
                  = (count_at d k + count_occ string_dec keys k)%nat)
    /\ NoDup (map fst d')
    /\ (forall k, In k (map fst d') <-> In k (map fst d) \/ In k keys)
    /\ total_count d' = (total_count d + List.length keys)%nat.
Proof.
  induction keys as [| k keys IH]; intros d N; simpl.
  - exists d. split; [reflexivity |].
    split; [intro; lia |]. split; [exact N |].
    split; [intro; tauto | lia].
  - destruct (count_one_spec d k) as (d1 & H1 & C1 & K1 & T1).
    rewrite H1.
    assert (N1 : NoDup (map fst d1)).
    { rewrite K1. destruct (dict_contains d k) eqn:C; [exact N |].
      apply NoDup_app; [exact N | repeat constructor; intros [] | ].
      intros x Ix [<- | []].
      apply dict_contains_In in Ix. congruence. }
    destruct (IH d1 N1) as (d' & H' & C' & N' & K' & T').
    exists d'. split; [exact H' |].
    split; [| split; [exact N' | split]].
    + intro k'. rewrite C', C1.
      destruct (string_dec k k'); lia.
    + intro k'. rewrite K', K1.
      destruct (dict_contains d k) eqn:C.
      * apply dict_contains_In in C.
        split; [intros [I | I]; auto | intros [I | [<- | I]]; auto].
      * rewrite in_app_iff. simpl. tauto.
    + rewrite T', T1. lia.
Qed.

(** ** Rounding to two decimals *)

Lemma round2_wd (x y : Q) : x == y -> round2 x == round2 y.
Proof.
  intro E. unfold round2.
  assert (F : Qfloor (x * 100) = Qfloor (y * 100)) by now rewrite E.
  rewrite F.
  assert (R : x * 100 - inject_Z (Qfloor (y * 100))
              == y * 100 - inject_Z (Qfloor (y * 100))) by now rewrite E.
  rewrite (Qltb_wd _ _ _ _ R (Qeq_refl (1 # 2))).
  rewrite (Qltb_wd _ _ _ _ (Qeq_refl (1 # 2)) R).
  reflexivity.
Qed.



(** ** Minimum, mean and maximum *)





(** ** The summary *)

Lemma get_summary_stats_nonempty (self : ArbitrageDetector)
    (first : ArbitrageOpportunity) (others : list ArbitrageOpportunity) :
  opportunities_found self = first :: others ->
  exists by_sport_ by_risk_,
    count_all (map sport (first :: others)) [] = Found by_sport_
    /\ count_all (map risk_level (first :: others)) [] = Found by_risk_
    /\ get_summary_stats self
       = Found
           {| total_opportunities := List.length (first :: others);
              avg_profit :=
                round2 (np_mean (map profit_percentage (first :: others)));
              max_profit :=
                round2 (py_max (profit_percentage first)
                               (map profit_percentage others));
              min_profit :=
                Some (round2 (py_min (profit_percentage first)
                                     (map profit_percentage others)));
              by_sport := by_sport_;
              by_risk := by_risk_ |}.
Proof.
  intro E. unfold get_summary_stats. rewrite E.
  destruct (count_all_spec (map sport (first :: others)) [] (NoDup_nil _))
    as (bs & Hs & _).
  destruct (count_all_spec (map risk_level (first :: others)) []
              (NoDup_nil _)) as (br & Hr & _).
  exists bs, br. rewrite Hs, Hr. auto.
Qed.

(** X9: [get_summary_stats] never raises; it counts the whole history;
    [by_sport] and [by_risk] list each sport and each risk level of the
    history once, with the number of opportunities that carry it, so each
    dictionary sums to the total; the key [min_profit] is absent exactly
    when the history is empty. *)
Theorem summary_counts_the_history (self : ArbitrageDetector) :
  let history := opportunities_found self in
  exists summary,
    get_summary_stats self = Found summary
    /\ total_opportunities summary = List.length history
    /\ (forall k, count_at (by_sport summary) k
                  = count_occ string_dec (map sport history) k)
    /\ (forall k, count_at (by_risk summary) k
                  = count_occ string_dec (map risk_level history) k)
    /\ (forall k, In k (map fst (by_sport summary))
                  <-> In k (map sport history))
    /\ (forall k, In k (map fst (by_risk summary))
                  <-> In k (map risk_level history))
    /\ NoDup (map fst (by_sport summary))
    /\ NoDup (map fst (by_risk summary))
    /\ total_count (by_sport summary) = List.length history
    /\ total_count (by_risk summary) = List.length history
    /\ (min_profit summary = None <-> history = []).
Proof.
  intro history. subst history.
  destruct (opportunities_found self) as [| first others] eqn:E.
  - unfold get_summary_stats. rewrite E. eexists.
    split; [reflexivity |]. simpl.
    repeat split; auto using NoDup_nil; intros [].
  - destruct (get_summary_stats_nonempty self first others E)
      as (bs & br & Hs & Hr & ->).
    destruct (count_all_spec (map sport (first :: others)) [] (NoDup_nil _))
      as (bs' & Hs' & Cs & Ns & Ks & Ts).
    destruct (count_all_spec (map risk_level (first :: others)) []
                (NoDup_nil _)) as (br' & Hr' & Cr & Nr & Kr & Tr).
    rewrite Hs in Hs'. injection Hs' as <-.
    rewrite Hr in Hr'. injection Hr' as <-.
    eexists. split; [reflexivity |].
    cbn [total_opportunities by_sport by_risk min_profit].
    rewrite length_map in Ts, Tr.
    split; [reflexivity |].
    split; [intro k; rewrite Cs; reflexivity |].
    split; [intro k; rewrite Cr; reflexivity |].
    split; [intro k; rewrite Ks; simpl; tauto |].
    split; [intro k; rewrite Kr; simpl; tauto |].
    split; [exact Ns |]. split; [exact Nr |].
    split; [exact Ts |]. split; [exact Tr |].
    split; discriminate.
Qed.



(** ** A scan followed by the summary *)



(** ** Decimal prices *)

Lemma scanned_probabilities (W : World) (game_data : Game) (s s' : State)
    (opp : ArbitrageOpportunity) :
  scan_game W game_data s = (Ok (Some opp), s') ->
  let hp := implied_probability (best_home_odds opp) in
  let ap := implied_probability (best_away_odds opp) in
  0 < best_home_odds opp /\ 0 < best_away_odds opp
  /\ 0 < hp /\ 0 < ap /\ hp + ap < 1
  /\ profit_percentage opp = (1 / (hp + ap) - 1) * 100
  /\ stake_home opp = hp / (hp + ap) * 100
  /\ stake_away opp = ap / (hp + ap) * 100.
Proof.
  intros H hp ap.
  pose proof (scan_game_some W game_data s s' opp H) as (G & Ho & _).
  apply accepted_facts in G.
  destruct G as (_ & Ph & Pa & _ & Lt & _).
  destruct Ho as (_ & Eh & _ & Ea & _ & Ep & Sh & Sa).
  unfold profit_fraction, total_probability in *.
  subst hp ap. rewrite Eh, Ea, Ep, Sh, Sa.
  pose proof (implied_probability_pos _ Ph).
  pose proof (implied_probability_pos _ Pa).
  repeat split; assumption.
Qed.

(** X12: when both best prices are at least 2.0, the stakes are inversely
    proportional to the prices: stake_home = 100 a/(h + a) and stake_away
    = 100 h/(h + a) percent for prices h and a, and the profit is
    100 (h a/(h + a) - 1) percent. *)
Theorem decimal_stakes_and_profit (W : World) (game_data : Game)
    (s s' : State) (opp : ArbitrageOpportunity) :
  scan_game W game_data s = (Ok (Some opp), s') ->
  2 <= best_home_odds opp ->
  2 <= best_away_odds opp ->
  let h := best_home_odds opp in
  let a := best_away_odds opp in
  stake_home opp == 100 * a / (h + a)
  /\ stake_away opp == 100 * h / (h + a)
  /\ profit_percentage opp == 100 * (h * a / (h + a) - 1)
  /\ stake_home opp * h == stake_away opp * a.
Proof.
  intros H Dh Da h a.
  destruct (scanned_probabilities W game_data s s' opp H)
    as (_ & _ & _ & _ & _ & -> & -> & ->).
  fold h a in Dh, Da |- *.
  unfold implied_probability.
  apply Qle_bool_iff in Dh, Da. rewrite Dh, Da.
  apply Qle_bool_iff in Dh, Da.
  repeat split; field; lra.
Qed.

Lemma demo_game_stakes_and_profit :
  exists opp,
    fst (scan_game Sample.world Sample.arb_game_1 Sample.start)
    = Ok (Some opp)
    /\ stake_home opp * best_home_odds opp
       == stake_away opp * best_away_odds opp.
Proof.
  destruct (scan_game Sample.world Sample.arb_game_1 Sample.start)
    as [r s'] eqn:E.
  assert (R : exists opp, r = Ok (Some opp)
                          /\ 2 <= best_home_odds opp
                          /\ 2 <= best_away_odds opp).
  { vm_compute in E. injection E as <- _. eexists.
    split; [reflexivity |]. split; discriminate. }
  destruct R as (opp & -> & Dh & Da). exists opp.
  split; [reflexivity |].
  apply (decimal_stakes_and_profit
           Sample.world Sample.arb_game_1 Sample.start s' opp E Dh Da).
Defined.

(** ** Markets other than head-to-head *)

(** X16: only the outcomes of head-to-head markets are looked at: two
    games with the same team names and the same head-to-head quotes (in
    visiting order) have the same best prices and bookmakers, whatever
    their other markets; with as many bookmaker entries, they are accepted
    or rejected alike, with the same profit. *)
Theorem only_head_to_head_quotes_count (d : ArbitrageDetector)
    (g1 g2 : Game) :
  dict_get (g_home_team g1) "" = dict_get (g_home_team g2) "" ->
  dict_get (g_away_team g1) "" = dict_get (g_away_team g2) "" ->
  quotes g1 = quotes g2 ->
  best_prices g1 = best_prices g2
  /\ (List.length (dict_get (g_bookmakers g1) [])
      = List.length (dict_get (g_bookmakers g2) []) ->
      accepted d g1 = accepted d g2
      /\ profit_fraction g1 = profit_fraction g2).
Proof.
  intros Hh Ha Hq.
  assert (B : best_prices g1 = best_prices g2).
  { rewrite !best_prices_quotes, Hh, Ha, Hq. reflexivity. }
  split; [exact B |].
  intro L.
  unfold accepted, profit_fraction, total_probability, best_home_price,
    best_away_price.
  rewrite B, L. split; reflexivity.
Qed.

Lemma spreads_market_is_ignored :
  best_prices Sample.one_source_game = best_prices Demo.one_source_game_bare.
Proof.
  apply (only_head_to_head_quotes_count default_detector
           Sample.one_source_game Demo.one_source_game_bare);
    reflexivity.
Defined.

(** * Properties of the detector on Python's numbers *)

Module PyFacts.

Import Py.
Local Open Scope float_scope.

(** ** Comparisons *)

Lemma exact_eq_not_lt (a b : exact) :
  exact_eq a b = true -> exact_lt a b = false /\ exact_lt b a = false.
Proof.
  destruct a as [| | x |], b as [| | y |]; simpl; try discriminate;
    try (split; reflexivity).
  intro E. apply Qeq_bool_iff in E.
  split; apply Qltb_ge; rewrite E; apply Qle_refl.
Qed.

(** Two numbers that compare equal are not ordered either way. *)
Lemma eq_not_lt (x y : number) :
  eq x y = true -> lt x y = false /\ gt x y = false.
Proof.
  unfold eq, lt, gt. apply exact_eq_not_lt.
Qed.

(** ** Divisions *)

Lemma truediv_same_divisor (a a' b c : float) :
  truediv a b = Ok c -> truediv a' b = Ok (a' / b).
Proof.
  unfold truediv.
  destruct (exact_eq (exact_of_float b) (Fin 0)); [discriminate |].
  reflexivity.
Qed.

Lemma truediv_value (a b c : float) : truediv a b = Ok c -> c = a / b.
Proof.
  unfold truediv.
  destruct (exact_eq (exact_of_float b) (Fin 0)); [discriminate |].
  intro H. injection H as <-. reflexivity.
Qed.

Lemma div_by_3600 (x : float) :
  div (PyFloat x) (PyInt 3600) = Ok (x / 3600).
Proof. reflexivity. Qed.

(** ** The classification of the time *)

Lemma py_assess_time_sensitivity_total (W : World) (game_data : Game)
    (profit_pct : float) (s : State) :
  exists label s',
    _assess_time_sensitivity W game_data profit_pct s = (Ok label, s')
    /\ this s' = this s.
Proof.
  unfold _assess_time_sensitivity, try_except, bind, lift, now, ret.
  destruct (to_datetime W (g_commence_time game_data)) as [t | e].
  - rewrite div_by_3600.
    destruct (gt (PyFloat profit_pct) (PyFloat 0.03));
      [eexists; eexists; split; reflexivity |].
    destruct (lt (PyFloat (total_seconds W t (clock s) / 3600)) (PyInt 2));
      [eexists; eexists; split; reflexivity |].
    destruct (gt (PyFloat (total_seconds W t (clock s) / 3600)) (PyInt 48));
      eexists; eexists; split; reflexivity.
  - eexists; eexists; split; reflexivity.
Qed.

Lemma py_assess_time_sensitivity_raised (W : World) (game_data : Game)
    (profit_pct : float) (s : State) (e : exn) :
  to_datetime W (g_commence_time game_data) = Raise e ->
  _assess_time_sensitivity W game_data profit_pct s = (Ok "moderate", s).
Proof.
  intro H.
  unfold _assess_time_sensitivity, try_except, bind, lift.
  rewrite H. reflexivity.
Qed.

Lemma py_assess_time_sensitivity_nat (W : World) (game_data : Game)
    (profit_pct : float) (s : State) :
  to_datetime W (g_commence_time game_data) = Ok NaT ->
  _assess_time_sensitivity W game_data profit_pct s
  = (Ok (if gt (PyFloat profit_pct) (PyFloat 0.03) then "urgent"
         else "moderate"),
     tick s).
Proof.
  intro H.
  unfold _assess_time_sensitivity, try_except, bind, lift, now, ret.
  rewrite H, div_by_3600. unfold total_seconds.
  destruct (gt (PyFloat profit_pct) (PyFloat 0.03)); reflexivity.
Qed.

(** ** The gates *)

(** [_calculate_arbitrage] once the two conversions and the division by
    the total have returned. *)
Lemma py_calculate_arbitrage_cases (W : World) (game_data : Game)
    (ho : number) (hb : string) (ao : number) (ab : string) (s : State)
    (hp ap inv_total : float) :
  _odds_to_probability ho = Ok hp ->
  _odds_to_probability ao = Ok ap ->
  ge (PyFloat (hp + ap)) (PyFloat 1) = false ->
  truediv 1 (hp + ap) = Ok inv_total ->
  let profit_pct := inv_total - 1 in
  (lt (PyFloat profit_pct) (min_profit_threshold (this s))
   || gt (PyFloat profit_pct) (max_profit_threshold (this s)) = true ->
   _calculate_arbitrage W game_data ho hb ao ab s = (Ok None, s))
  /\ (lt (PyFloat profit_pct) (min_profit_threshold (this s))
      || gt (PyFloat profit_pct) (max_profit_threshold (this s)) = false ->
      exists opp label s1,
        _assess_time_sensitivity W game_data profit_pct s = (Ok label, s1)
        /\ this s1 = this s
        /\ _calculate_arbitrage W game_data ho hb ao ab s
           = (Ok (Some opp), tick s1)
        /\ profit_percentage opp = profit_pct * 100
        /\ best_home_odds opp = ho /\ best_away_odds opp = ao
        /\ stake_home opp = hp / (hp + ap) * 100
        /\ stake_away opp = ap / (hp + ap) * 100
        /\ risk_level opp = _assess_risk profit_pct ho ao hb ab
        /\ time_sensitivity opp = label).
Proof.
  intros Hh Ha T D profit_pct.
  unfold _calculate_arbitrage. rewrite Hh, Ha. run. rewrite T, D. run.
  fold profit_pct.
  split; intro G.
  - destruct (lt (PyFloat profit_pct) (min_profit_threshold (this s)));
      [reflexivity |].
    simpl in G. rewrite G. reflexivity.
  - apply orb_false_iff in G. destruct G as [G1 G2].
    rewrite G1, G2.
    rewrite (truediv_same_divisor _ hp _ _ D),
            (truediv_same_divisor _ ap _ _ D). run.
    destruct (py_assess_time_sensitivity_total W game_data profit_pct s)
      as (label & s1 & Ht & Hd).
    rewrite Ht. unfold now.
    eexists; exists label, s1.
    split; [reflexivity |]. split; [exact Hd |].
    split; [reflexivity |].
    cbn [profit_percentage best_home_odds best_away_odds stake_home
         stake_away risk_level time_sensitivity].
    repeat split; reflexivity.
Qed.


(** [scan_game] once the loop has found a price for each side. *)
Lemma py_scan_game_reaches_the_gates (W : World) (game_data : Game)
    (s : State) :
  (2 <= List.length (dict_get (g_bookmakers game_data) []))%nat ->
  eq (odds (fst (best_prices game_data))) (PyInt 0) = false ->
  eq (odds (snd (best_prices game_data))) (PyInt 0) = false ->
  scan_game W game_data s
  = (opportunity <-
       _calculate_arbitrage W game_data
         (odds (fst (best_prices game_data)))
         (bookmaker (fst (best_prices game_data)))
         (odds (snd (best_prices game_data)))
         (bookmaker (snd (best_prices game_data))) ;;
     match opportunity with
     | Some opp => modify (remember opp) ;;; ret (Some opp)
     | None => ret None
     end)%eff s.
Proof.
  intros L Zh Za. unfold scan_game.
  apply Nat.ltb_ge in L. rewrite L.
  destruct (best_prices game_data) as [bh ba]. simpl in Zh, Za |- *.
  rewrite Zh, Za. reflexivity.
Qed.

(** ** C6: the thresholds are inclusive *)

(** C6: for a game that reaches the threshold gates (two bookmaker
    entries, a price found for each side, the two conversions returned, a
    computed total below 1.0), with [profit_pct] the double the code
    computes: a profit equal to the minimum threshold is accepted, a
    profit equal to the maximum threshold is accepted, and the game is
    rejected exactly when its profit is strictly below the minimum or
    strictly above the maximum. *)
Theorem double_threshold_gates_are_inclusive (W : World)
    (game_data : Game) (s : State) (home_prob away_prob inv_total : float) :
  (2 <= List.length (dict_get (g_bookmakers game_data) []))%nat ->
  eq (odds (fst (best_prices game_data))) (PyInt 0) = false ->
  eq (odds (snd (best_prices game_data))) (PyInt 0) = false ->
  _odds_to_probability (odds (fst (best_prices game_data)))
  = Ok home_prob ->
  _odds_to_probability (odds (snd (best_prices game_data)))
  = Ok away_prob ->
  ge (PyFloat (home_prob + away_prob)) (PyFloat 1) = false ->
  truediv 1 (home_prob + away_prob) = Ok inv_total ->
  let profit_pct := PyFloat (inv_total - 1) in
  let accepts :=
    exists opp s',
      scan_game W game_data s = (Ok (Some opp), s')
      /\ profit_percentage opp = (inv_total - 1) * 100 in
  (eq profit_pct (min_profit_threshold (this s)) = true ->
   gt profit_pct (max_profit_threshold (this s)) = false -> accepts)
  /\ (eq profit_pct (max_profit_threshold (this s)) = true ->
      lt profit_pct (min_profit_threshold (this s)) = false -> accepts)
  /\ (scan_game W game_data s = (Ok None, s)
      <-> lt profit_pct (min_profit_threshold (this s)) = true
          \/ gt profit_pct (max_profit_threshold (this s)) = true).
Proof.
  intros L Zh Za Hh Ha T D profit_pct accepts.
  rewrite (py_scan_game_reaches_the_gates W game_data s L Zh Za).
  destruct (py_calculate_arbitrage_cases W game_data _
              (bookmaker (fst (best_prices game_data))) _
              (bookmaker (snd (best_prices game_data))) s _ _ _
              Hh Ha T D) as [R A].
  fold profit_pct in R, A.
  assert (Acc : lt profit_pct (min_profit_threshold (this s)) = false ->
                gt profit_pct (max_profit_threshold (this s)) = false ->
                accepts).
  { intros G1 G2.
    destruct A as (opp & label & s1 & _ & _ & Hc & Hp & _);
      [rewrite G1, G2; reflexivity |].
    exists opp, (remember opp (tick s1)).
    rewrite (py_scan_game_reaches_the_gates W game_data s L Zh Za).
    unfold bind. rewrite Hc. split; [reflexivity | exact Hp]. }
  split; [| split].
  - intros E G2. apply Acc; [| exact G2]. exact (proj1 (eq_not_lt _ _ E)).
  - intros E G1. apply Acc; [exact G1 |]. exact (proj2 (eq_not_lt _ _ E)).
  - split.
    + intro N.
      destruct (lt profit_pct (min_profit_threshold (this s))) eqn:G1;
        [now left |].
      destruct (gt profit_pct (max_profit_threshold (this s))) eqn:G2;
        [now right |].
      destruct (Acc eq_refl eq_refl) as (opp & s' & Hs & _).
      rewrite (py_scan_game_reaches_the_gates W game_data s L Zh Za) in Hs.
      rewrite Hs in N. discriminate N.
    + intro O. unfold bind. rewrite R; [reflexivity |].
      destruct O as [O | O]; rewrite O; [reflexivity | apply orb_true_r].
Qed.

(** Best prices 2.04 and 2.04 give the profit 0.020000000000000018; with
    that double as the minimum threshold the game is accepted. *)
Lemma profit_equal_to_min_threshold_accepted :
  exists opp s',
    scan_game PyDemo.world PyDemo.game_204
      (PyDemo.fresh (new_detector (PyFloat PyDemo.profit_204)
                                  (PyFloat 0.15)))
    = (Ok (Some opp), s')
    /\ profit_percentage opp = PyDemo.profit_204 * 100.
Proof.
  refine (proj1 (double_threshold_gates_are_inclusive PyDemo.world
                   PyDemo.game_204
                   (PyDemo.fresh (new_detector (PyFloat PyDemo.profit_204)
                                               (PyFloat 0.15)))
                   (1 / 2.04) (1 / 2.04) (1 / (1 / 2.04 + 1 / 2.04))
                   _ _ _ _ _ _ _) _ _).
  - simpl. lia.
  - vm_compute. reflexivity.
  - vm_compute. reflexivity.
  - vm_compute. reflexivity.
  - vm_compute. reflexivity.
  - vm_compute. reflexivity.
  - vm_compute. reflexivity.
  - vm_compute. reflexivity.
  - vm_compute. reflexivity.
Defined.

(** The same at the maximum threshold. *)
Example profit_equal_to_max_threshold_accepted :
  exists opp,
    fst (scan_game PyDemo.world PyDemo.game_204
           (PyDemo.fresh (new_detector (PyFloat 0.01)
                                       (PyFloat PyDemo.profit_204))))
    = Ok (Some opp)
    /\ profit_percentage opp = PyDemo.profit_204 * 100.
Proof.
  eexists. split; vm_compute; reflexivity.
Qed.

(** The doubles decide: best prices 2.10 and 2.10 give the profit
    0.050000000000000044, which is strictly above a maximum threshold of
    0.05, and best prices 2.0 and 3.0 give 0.20000000000000018, strictly
    above 0.2; both games are rejected. *)
Example profit_a_rounding_above_max_threshold_rejected :
  fst (scan_game PyDemo.world PyDemo.game_210
         (PyDemo.fresh (new_detector (PyFloat 0.01) (PyFloat 0.05))))
  = Ok None
  /\ fst (scan_game PyDemo.world PyDemo.game_2_3
            (PyDemo.fresh (new_detector (PyFloat 0.01) (PyFloat 0.2))))
     = Ok None.
Proof.
  split; vm_compute; reflexivity.
Qed.

(** ** C10: a commence time that does not parse *)

(** C10 fails on the code: for an empty commence time, and for an absent
    one, the parser returns NaT without raising, the except clause is not
    reached, and a profit above 3 percent (here 5 percent, best prices
    2.10 and 2.10) is classified "urgent", not "moderate". *)
Theorem empty_commence_time_is_urgent :
  (exists opp s',
     scan_game PyDemo.world PyDemo.game_210_empty_time PyDemo.start
     = (Ok (Some opp), s')
     /\ commence_time opp = ""
     /\ time_sensitivity opp = "urgent")
  /\ (exists opp s',
        scan_game PyDemo.world PyDemo.game_210_no_time PyDemo.start
        = (Ok (Some opp), s')
        /\ time_sensitivity opp = "urgent").
Proof.
  split.
  - eexists. eexists. split; [vm_compute; reflexivity |].
    split; reflexivity.
  - eexists. eexists. split; [vm_compute; reflexivity |].
    reflexivity.
Qed.

(** ** The classification without a timestamp *)

(** X17: [_assess_time_sensitivity] never raises; when the parser raises,
    it answers "moderate" whatever the profit and reads no clock; when the
    parser returns NaT, it answers "urgent" exactly when the profit
    exceeds 0.03 and "moderate" otherwise. *)
Theorem time_sensitivity_without_a_timestamp (W : World)
    (game_data : Game) (profit_pct : float) (s : State) :
  (exists label s',
     _assess_time_sensitivity W game_data profit_pct s = (Ok label, s'))
  /\ (forall e,
        to_datetime W (g_commence_time game_data) = Raise e ->
        _assess_time_sensitivity W game_data profit_pct s
        = (Ok "moderate", s))
  /\ (to_datetime W (g_commence_time game_data) = Ok NaT ->
      _assess_time_sensitivity W game_data profit_pct s
      = (Ok (if gt (PyFloat profit_pct) (PyFloat 0.03) then "urgent"
             else "moderate"),
         tick s)).
Proof.
  split; [| split].
  - destruct (py_assess_time_sensitivity_total W game_data profit_pct s)
      as (label & s' & H & _).
    now exists label, s'.
  - intros e H. now apply (py_assess_time_sensitivity_raised _ _ _ _ e).
  - apply py_assess_time_sensitivity_nat.
Qed.

(** ** What [scan_game] raises *)









(** An [int] price beyond the range of the doubles raises on its
    conversion. *)
Example huge_int_price_raises_overflow :
  scan_game PyDemo.world PyDemo.game_huge_int PyDemo.start
  = (Raise OverflowError, PyDemo.start).
Proof. vm_compute. reflexivity. Qed.

(** ** What [scan_game] records *)

Lemma calculate_arbitrage_returns (W : World) (game_data : Game)
    (ho : number) (hb : string) (ao : number) (ab : string)
    (s s' : State) (r : option ArbitrageOpportunity) :
  _calculate_arbitrage W game_data ho hb ao ab s = (Ok r, s') ->
  this s' = this s /\ (r = None -> s' = s).
Proof.
  unfold _calculate_arbitrage.
  destruct (_odds_to_probability ho) as [hp | eh]; run; [| discriminate].
  destruct (_odds_to_probability ao) as [ap | ea]; run; [| discriminate].
  destruct (ge (PyFloat (hp + ap)) (PyFloat 1)).
  { intro H. injection H as <- <-. auto. }
  destruct (truediv 1 (hp + ap)) as [inv_total | ed] eqn:D; run;
    [| discriminate].
  destruct (lt (PyFloat (inv_total - 1)) (min_profit_threshold (this s))).
  { intro H. injection H as <- <-. auto. }
  destruct (gt (PyFloat (inv_total - 1)) (max_profit_threshold (this s))).
  { intro H. injection H as <- <-. auto. }
  rewrite (truediv_same_divisor _ hp _ _ D),
          (truediv_same_divisor _ ap _ _ D). run.
  destruct (py_assess_time_sensitivity_total W game_data (inv_total - 1) s)
    as (label & s1 & Ht & Hd).
  rewrite Ht. unfold now.
  intro H. injection H as <- <-.
  split; [exact Hd | discriminate].
Qed.

(** X7: when [scan_game] returns, an opportunity returned is the one
    appended to the history, a None has left the detector and the clock
    as they were, and the thresholds have not changed. *)
Theorem scan_game_records_what_it_returns (W : World) (game_data : Game)
    (s s' : State) (r : option ArbitrageOpportunity) :
  scan_game W game_data s = (Ok r, s') ->
  opportunities_found (this s')
  = (opportunities_found (this s)
     ++ match r with Some opp => [opp] | None => [] end)%list
  /\ (r = None -> s' = s)
  /\ min_profit_threshold (this s') = min_profit_threshold (this s)
  /\ max_profit_threshold (this s') = max_profit_threshold (this s).
Proof.
  assert (Same : forall r0, r0 = None -> (Ok r0, s) = (Ok r, s') ->
            opportunities_found (this s')
            = (opportunities_found (this s)
               ++ match r with Some opp => [opp] | None => [] end)%list
            /\ (r = None -> s' = s)
            /\ min_profit_threshold (this s')
               = min_profit_threshold (this s)
            /\ max_profit_threshold (this s')
               = max_profit_threshold (this s)).
  { intros r0 -> H. injection H as <- <-.
    rewrite app_nil_r. auto. }
  unfold scan_game.
  destruct (List.length (dict_get (g_bookmakers game_data) []) <? 2)%nat;
    [now apply Same |].
  destruct (best_prices game_data) as [bh ba].
  destruct (eq (odds bh) (PyInt 0) || eq (odds ba) (PyInt 0));
    [now apply Same |].
  unfold bind.
  destruct (_calculate_arbitrage W game_data (odds bh) (bookmaker bh)
              (odds ba) (bookmaker ba) s) as [[[opp |] | e0] s0] eqn:C;
    [| | discriminate].
  - destruct (calculate_arbitrage_returns W game_data _ _ _ _ _ _ _ C)
      as [Hd _].
    unfold modify, ret. intro H. injection H as <- <-.
    simpl. rewrite Hd. repeat split. discriminate.
  - destruct (calculate_arbitrage_returns W game_data _ _ _ _ _ _ _ C)
      as [_ Hn].
    rewrite (Hn eq_refl). now apply Same.
Qed.

Lemma accepted_game_is_recorded :
  exists opp s',
    scan_game PyDemo.world PyDemo.game_204 PyDemo.start
    = (Ok (Some opp), s')
    /\ opportunities_found (this s') = [opp].
Proof.
  destruct (scan_game PyDemo.world PyDemo.game_204 PyDemo.start)
    as [r s'] eqn:E.
  assert (R : exists opp, r = Ok (Some opp)).
  { vm_compute in E. injection E as <- _. eexists. reflexivity. }
  destruct R as [opp ->]. exists opp, s'. split; [reflexivity |].
  apply (scan_game_records_what_it_returns
           PyDemo.world PyDemo.game_204 PyDemo.start s' (Some opp) E).
Defined.

End PyFacts.

(** ** C8: the bankroll and the gates *)

